(** * notion_mcp: the tool dispatcher and its two codecs

    A shallow embedding of [src/notion_mcp/server.py].  The server receives a
    tool name and an arguments object, talks to the Notion HTTP API and
    answers with a list holding one [TextContent].

    - Python values that travel as JSON are terms of [json]; a dict is an
      association list in insertion order.
    - A Python expression that may raise is a [result]; the exception classes
      the file can meet are the constructors of [exn].
    - A handler is an [io] computation: it reads the answers of the Notion API
      from a [world] and records every request it issues in a trace.
    - [logger.error] writes to the log only and is left out. *)

From Stdlib Require Import String Ascii List ZArith Bool Lia DecimalString.
Import ListNotations.
Local Open Scope list_scope.
Local Open Scope string_scope.

(** ** JSON values *)

Module Json.

(** Numbers are integers here: the server never computes with a number, it
    only tests one for truth and copies it. *)
Unset Elimination Schemes.
Inductive json : Type :=
| JNull
| JBool (b : bool)
| JNum (n : Z)
| JStr (s : string)
| JList (items : list json)
| JDict (fields : list (string * json)).
Set Elimination Schemes.

Definition dict := list (string * json).

(** [d[k]] when present. *)
Fixpoint lookup (k : string) (d : dict) : option json :=
  match d with
  | [] => None
  | (k', v) :: d' => if (k' =? k)%string then Some v else lookup k d'
  end.

(** [d[k] = v]: an existing key keeps its place, a new key goes last. *)
Fixpoint dict_set (k : string) (v : json) (d : dict) : dict :=
  match d with
  | [] => [(k, v)]
  | (k', v') :: d' =>
      if (k' =? k)%string then (k', v) :: d' else (k', v') :: dict_set k v d'
  end.

(** A dict display [{k1: v1, k2: v2, ...}], entries stored left to right. *)
Definition dict_of (entries : list (string * json)) : dict :=
  fold_left (fun d kv => dict_set (fst kv) (snd kv) d) entries [].

End Json.
Export Json.

(** ** Python expressions that may raise *)

Module Py.

Inductive exn : Type :=
| HTTPError (msg : string)      (* httpx.HTTPError and its subclasses; msg is str(e) *)
| KeyError (key : string)
| AttributeError
| TypeError
| ValueError (msg : string)
| JSONDecodeError.

Inductive result (A : Type) : Type :=
| Ok (a : A)
| Raise (e : exn).
Arguments Ok {A} a.
Arguments Raise {A} e.

Definition bind {A B} (m : result A) (k : A -> result B) : result B :=
  match m with
  | Ok a => k a
  | Raise e => Raise e
  end.

Declare Scope py_scope.
Delimit Scope py_scope with py.
Notation "x <- m ;; k" := (bind m (fun x => k))
  (at level 61, m at next level, right associativity) : py_scope.

Local Open Scope py_scope.

Fixpoint mapM {A B} (f : A -> result B) (l : list A) : result (list B) :=
  match l with
  | [] => Ok []
  | x :: xs => y <- f x ;; ys <- mapM f xs ;; Ok (y :: ys)
  end.

(** [bool(v)]. *)
Definition truthy (v : json) : bool :=
  match v with
  | JNull => false
  | JBool b => b
  | JNum n => negb (n =? 0)%Z
  | JStr s => negb (s =? "")%string
  | JList [] => false
  | JList (_ :: _) => true
  | JDict [] => false
  | JDict (_ :: _) => true
  end.

(** [v == "s"] for a string constant. *)
Definition is_str (v : json) (s : string) : bool :=
  match v with
  | JStr s' => (s' =? s)%string
  | _ => false
  end.

(** [o.get(k, default)]; only a dict has the method. *)
Definition py_get (o : json) (k : string) (default : json) : result json :=
  match o with
  | JDict d => Ok (match lookup k d with Some v => v | None => default end)
  | _ => Raise AttributeError
  end.

(** [o.get(key, default)] where the key is itself a value: a list or a dict
    is not hashable; a key that is not a string is in no dict read from
    JSON. *)
Definition py_get_key (o : json) (key : json) (default : json) : result json :=
  match o with
  | JDict d =>
      match key with
      | JStr k => Ok (match lookup k d with Some v => v | None => default end)
      | JList _ | JDict _ => Raise TypeError
      | _ => Ok default
      end
  | _ => Raise AttributeError
  end.

(** [o[k]] for a string constant [k]. *)
Definition py_index (o : json) (k : string) : result json :=
  match o with
  | JDict d =>
      match lookup k d with
      | Some v => Ok v
      | None => Raise (KeyError k)
      end
  | _ => Raise TypeError
  end.

(** A byte [10xxxxxx] continues a UTF-8 character. *)
Definition is_continuation (c : ascii) : bool :=
  match c with
  | Ascii _ _ _ _ _ _ false true => true
  | _ => false
  end.

(** The characters of a str, each as a str of its own. *)
Fixpoint chars (s : string) : list string :=
  match s with
  | EmptyString => []
  | String c s' =>
      match s' with
      | String c' _ =>
          if is_continuation c' then
            match chars s' with
            | h :: t => String c h :: t
            | [] => [String c EmptyString]
            end
          else String c EmptyString :: chars s'
      | EmptyString => [String c EmptyString]
      end
  end.

(** [for x in v]: the elements of a list, the keys of a dict, the characters
    of a str. *)
Definition py_iter (v : json) : result (list json) :=
  match v with
  | JList l => Ok l
  | JDict d => Ok (map (fun kv => JStr (fst kv)) d)
  | JStr s => Ok (map JStr (chars s))
  | _ => Raise TypeError
  end.

Definition as_str (v : json) : result string :=
  match v with
  | JStr s => Ok s
  | _ => Raise TypeError
  end.

(** [sep.join(parts)]: every part must be a str. *)
Definition py_join (sep : string) (parts : list json) : result string :=
  strs <- mapM as_str parts ;; Ok (String.concat sep strs).

(** [s.replace(c, "")] for a one-character [c]. *)
Fixpoint remove_char (c : ascii) (s : string) : string :=
  match s with
  | EmptyString => EmptyString
  | String a s' =>
      if Ascii.eqb a c then remove_char c s' else String a (remove_char c s')
  end.

(** [v.replace("-", "")]; only a str has the method. *)
Definition py_strip_hyphens (v : json) : result string :=
  match v with
  | JStr s => Ok (remove_char "-"%char s)
  | _ => Raise AttributeError
  end.

(** [o.items()]. *)
Definition py_items (o : json) : result dict :=
  match o with
  | JDict d => Ok d
  | _ => Raise AttributeError
  end.

(** A value used as the key of a dict display, as it reaches the wire:
    [json.dumps] writes the keys [None], [True], [False] and integers as
    strings; a list or a dict is not hashable. *)
Definition py_key (v : json) : result string :=
  match v with
  | JStr s => Ok s
  | JNull => Ok "null"
  | JBool true => Ok "true"
  | JBool false => Ok "false"
  | JNum n => Ok (NilZero.string_of_int (Z.to_int n))
  | JList _ | JDict _ => Raise TypeError
  end.

End Py.
Export Py.

(** ** [json.dumps(v, indent=2, ensure_ascii=False)] *)

Module Dumps.

Definition dquote : ascii := ascii_of_nat 34.
Definition backslash : ascii := ascii_of_nat 92.
Definition newline : string := String (ascii_of_nat 10) EmptyString.

Definition hex_digit (n : nat) : ascii :=
  ascii_of_nat (if (n <? 10)%nat then 48 + n else 87 + n).

(** The replacement of one character inside a JSON string: the quote, the
    backslash and the control characters are escaped, every other byte is
    kept (so non-ASCII text stays as it is). *)
Definition escape (c : ascii) : string :=
  let n := nat_of_ascii c in
  if (n =? 34)%nat then String backslash (String dquote EmptyString)
  else if (n =? 92)%nat then String backslash (String backslash EmptyString)
  else if (n =? 8)%nat then String backslash "b"
  else if (n =? 12)%nat then String backslash "f"
  else if (n =? 10)%nat then String backslash "n"
  else if (n =? 13)%nat then String backslash "r"
  else if (n =? 9)%nat then String backslash "t"
  else if (n <? 32)%nat then
    String backslash
      ("u00" ++ String (hex_digit (n / 16)) (String (hex_digit (n mod 16)) EmptyString))
  else String c EmptyString.

Fixpoint escape_all (s : string) : string :=
  match s with
  | EmptyString => EmptyString
  | String c s' => escape c ++ escape_all s'
  end.

Definition encode_string (s : string) : string :=
  String dquote (escape_all s ++ String dquote EmptyString).

Fixpoint spaces (n : nat) : string :=
  match n with
  | O => EmptyString
  | S n' => String " "%char (spaces n')
  end.

(** A line break followed by the indentation of nesting depth [level]. *)
Definition newline_indent (level : nat) : string :=
  newline ++ spaces (2 * level).

Fixpoint dumps_at (level : nat) (v : json) {struct v} : string :=
  match v with
  | JNull => "null"
  | JBool true => "true"
  | JBool false => "false"
  | JNum n => NilZero.string_of_int (Z.to_int n)
  | JStr s => encode_string s
  | JList [] => "[]"
  | JList items =>
      "[" ++ newline_indent (S level)
      ++ String.concat ("," ++ newline_indent (S level))
           (map (dumps_at (S level)) items)
      ++ newline_indent level ++ "]"
  | JDict [] => "{}"
  | JDict fields =>
      "{" ++ newline_indent (S level)
      ++ String.concat ("," ++ newline_indent (S level))
           (map (fun kv => encode_string (fst kv) ++ ": " ++ dumps_at (S level) (snd kv))
                fields)
      ++ newline_indent level ++ "}"
  end.

Definition json_dumps (v : json) : string := dumps_at 0 v.

End Dumps.
Export Dumps.

(** ** The two codecs of [server.py] *)

Module Codec.

Local Open Scope py_scope.

(** [[part.get("plain_text", "") for part in parts]] joined with one space;
    the comprehension is shared by the title, the rich-text property and the
    text-like blocks. *)
Definition join_plain_text (parts : json) : result json :=
  items <- py_iter parts ;;
  frags <- mapM (fun part => py_get part "plain_text" (JStr "")) items ;;
  s <- py_join " " frags ;;
  Ok (JStr s).

Definition extract_multi_select (property_data : json) : result json :=
  if negb (truthy property_data) then Ok (JList [])
  else
    ty <- py_get property_data "type" JNull ;;
    if negb (is_str ty "multi_select") then Ok (JList [])
    else
      options <- py_get property_data "multi_select" (JList []) ;;
      items <- py_iter options ;;
      names <- mapM (fun item => py_get item "name" (JStr "")) items ;;
      Ok (JList names).

Definition extract_select (property_data : json) : result json :=
  if negb (truthy property_data) then Ok (JStr "")
  else
    ty <- py_get property_data "type" JNull ;;
    if negb (is_str ty "select") then Ok (JStr "")
    else
      select_data <- py_get property_data "select" (JDict []) ;;
      if truthy select_data then py_get select_data "name" (JStr "")
      else Ok (JStr "").

Definition extract_text_from_title (title_property : json) : result json :=
  if negb (truthy title_property) then Ok (JStr "")
  else
    title_parts <- py_get title_property "title" (JList []) ;;
    if truthy title_parts then join_plain_text title_parts
    else Ok (JStr "").

Definition format_property_value (property_data : json) : result json :=
  if negb (truthy property_data) then Ok JNull
  else
    prop_type <- py_get property_data "type" JNull ;;
    if is_str prop_type "title" then extract_text_from_title property_data
    else if is_str prop_type "rich_text" then
      parts <- py_get property_data "rich_text" (JList []) ;;
      join_plain_text parts
    else if is_str prop_type "select" then
      select_data <- py_get property_data "select" JNull ;;
      if truthy select_data then py_get select_data "name" JNull
      else Ok JNull
    else if is_str prop_type "multi_select" then
      options <- py_get property_data "multi_select" (JList []) ;;
      items <- py_iter options ;;
      names <- mapM (fun item => py_get item "name" JNull) items ;;
      Ok (JList names)
    else if is_str prop_type "date" then
      date_data <- py_get property_data "date" (JDict []) ;;
      if truthy date_data then
        start <- py_get date_data "start" JNull ;;
        end_ <- py_get date_data "end" JNull ;;
        Ok (JDict (dict_of [("start", start); ("end", end_)]))
      else Ok JNull
    else py_get_key property_data prop_type JNull.

(** The six kinds whose text [format_block] flattens: the four of the first
    test, then the two list items of the second. *)
Definition text_like : list string :=
  ["paragraph"; "heading_1"; "heading_2"; "heading_3";
   "bulleted_list_item"; "numbered_list_item"].

Definition format_block (block : json) : result json :=
  block_type <- py_get block "type" JNull ;;
  if negb (truthy block_type) then Ok JNull
  else
    content <- py_get_key block block_type (JDict []) ;;
    if existsb (is_str block_type) ["paragraph"; "heading_1"; "heading_2"; "heading_3"]
    then
      runs <- py_get content "rich_text" (JList []) ;;
      text <- join_plain_text runs ;;
      Ok (JDict (dict_of [("type", block_type); ("text", text)]))
    else if is_str block_type "bulleted_list_item" || is_str block_type "numbered_list_item"
    then
      runs <- py_get content "rich_text" (JList []) ;;
      text <- join_plain_text runs ;;
      Ok (JDict (dict_of [("type", block_type); ("text", text)]))
    else
      Ok (JDict (dict_of [("type", block_type); ("content", content)])).

(** The block is written as the request body carries it: keys are strings
    ([py_key]).  For a str [block_type], the declared parameter type, this is
    the Python dict itself; a [block_type] equal to ["type"] or ["object"]
    overwrites that entry of the display. *)
Definition create_block_content (block_type text : json) : result json :=
  key <- py_key block_type ;;
  Ok (JDict (dict_of
    [("type", block_type);
     ("object", JStr "block");
     (key, JDict (dict_of
        [("rich_text", JList
           [JDict (dict_of
              [("type", JStr "text");
               ("text", JDict (dict_of [("content", text)]))])])]))])).

End Codec.
Export Codec.

(** ** The Notion API as the handlers see it *)

Module Http.

Inductive method : Type := GET | POST | PATCH.

Record request : Type := mk_request {
  meth : method;
  url : string;
  headers : list (string * string);
  payload : option json            (* the [json=] argument *)
}.

(** What one call yields: an [httpx.HTTPError] (a transport failure of the
    call itself, or the status error of [raise_for_status] on a non-2xx
    answer) with its message, or a 2xx answer with its decoded body, [None]
    when the body is not JSON. *)
Inductive response : Type :=
| Failure (msg : string)
| Reply (content : option json).

(** The outside: the answer to the [n]-th request of an invocation. *)
Definition world := nat -> request -> response.

Definition exchange := (request * response)%type.
Definition trace := list exchange.

(** A handler: reads the world, extends the trace, returns or raises. *)
Definition io (A : Type) : Type := world -> trace -> result A * trace.

Definition ret {A} (a : A) : io A := fun _ tr => (Ok a, tr).

Definition lift {A} (r : result A) : io A := fun _ tr => (r, tr).

Definition iobind {A B} (m : io A) (k : A -> io B) : io B :=
  fun w tr =>
    match m w tr with
    | (Ok a, tr') => k a w tr'
    | (Raise e, tr') => (Raise e, tr')
    end.

(** [response = await client.<method>(...); response.raise_for_status()]. *)
Definition send (rq : request) : io (option json) :=
  fun w tr =>
    let resp := w (length tr) rq in
    (match resp with
     | Failure msg => Raise (HTTPError msg)
     | Reply content => Ok content
     end,
     (tr ++ [(rq, resp)])%list).

(** [response.json()]. *)
Definition response_json (content : option json) : result json :=
  match content with
  | Some v => Ok v
  | None => Raise JSONDecodeError
  end.

(** [try: body  except httpx.HTTPError as e: handler(str(e))]. *)
Definition try_http {A} (body : io A) (handler : string -> io A) : io A :=
  fun w tr =>
    match body w tr with
    | (Raise (HTTPError msg), tr') => handler msg w tr'
    | other => other
    end.

Declare Scope io_scope.
Delimit Scope io_scope with io.
Notation "x <- m ;; k" := (iobind m (fun x => k))
  (at level 61, m at next level, right associativity) : io_scope.

End Http.
Export Http.

(** ** [server.py] *)

Module Server.

Record TextContent : Type := mk_text { type : string; text : string }.

(** [[TextContent(type="text", text=t)]]. *)
Definition text_result (t : string) : list TextContent :=
  [{| type := "text"; text := t |}].

Record Tool : Type := mk_tool {
  name : string;
  description : string;
  inputSchema : json
}.

Definition string_schema (descr : string) : json :=
  JDict [("type", JStr "string"); ("description", JStr descr)].

Definition object_schema (properties : dict) (required : list string) : json :=
  JDict [("type", JStr "object");
         ("properties", JDict properties);
         ("required", JList (map JStr required))].

Definition list_tools : list Tool :=
  [ {| name := "show_all_notion_pages";
       description := "Show all Notion pages from the database given in the configuration";
       inputSchema := object_schema [] [] |};
    {| name := "notion_update_status";
       description := "Update the Status of a Notion page";
       inputSchema := object_schema
         [("page_id", string_schema "The ID of the Notion page to update");
          ("target_status",
           string_schema "The status to set (e.g., 'Done', 'In Progress', 'To Do', etc.)")]
         ["page_id"; "target_status"] |};
    {| name := "notion_read_page_content";
       description := "Read the content of a Notion page";
       inputSchema := object_schema
         [("page_id", string_schema "The ID of the Notion page to read")]
         ["page_id"] |};
    {| name := "notion_update_page_content";
       description := "Update the content of a Notion page";
       inputSchema := object_schema
         [("page_id", string_schema "The ID of the Notion page to update");
          ("content",
           JDict [("type", JStr "array");
                  ("description", JStr "Array of content blocks to add to the page");
                  ("items", object_schema
                     [("type", string_schema "The type of block (paragraph, heading_1, etc.)");
                      ("text", string_schema "The text content of the block")]
                     ["type"; "text"])])]
         ["page_id"; "content"] |};
    {| name := "notion_add_comment";
       description := "Add a comment to a Notion page";
       inputSchema := object_schema
         [("page_id", string_schema "The ID of the Notion page to add a comment to");
          ("comment", string_schema "The comment text to add");
          ("icon",
           JDict [("type", JStr "string");
                  ("description", JStr "The emoji to use as the comment icon (optional)");
                  ("default", JStr "💬")])]
         ["page_id"; "comment"] |} ].

Definition NOTION_VERSION : string := "2022-06-28".
Definition NOTION_BASE_URL : string := "https://api.notion.com/v1".

Section Configured.

(** The two settings read from [.env]; the module refuses to load when one is
    empty. *)
Variable NOTION_API_KEY : string.
Variable DATABASE_ID : string.

(** [repr(v)], the text an f-string writes for a value that is not a str. *)
Variable py_repr : json -> string.

(** [f"{v}"]. *)
Definition py_str (v : json) : string :=
  match v with
  | JStr s => s
  | _ => py_repr v
  end.

Definition notion_headers : list (string * string) :=
  [("Authorization", "Bearer " ++ NOTION_API_KEY);
   ("Content-Type", "application/json");
   ("Notion-Version", NOTION_VERSION)].

Definition http_get (u : string) : io (option json) :=
  send {| meth := GET; url := u; headers := notion_headers; payload := None |}.

Definition http_post (u : string) (body : json) : io (option json) :=
  send {| meth := POST; url := u; headers := notion_headers; payload := Some body |}.

Definition http_patch (u : string) (body : json) : io (option json) :=
  send {| meth := PATCH; url := u; headers := notion_headers; payload := Some body |}.

Local Open Scope io_scope.

Definition fetch_todos : io json :=
  content <- http_post (NOTION_BASE_URL ++ "/databases/" ++ DATABASE_ID ++ "/query")
    (JDict (dict_of
       [("sorts", JList [JDict (dict_of [("timestamp", JStr "created_time");
                                         ("direction", JStr "descending")])]);
        ("page_size", JNum 50)])) ;;
  lift (response_json content).

Definition get_page_content (page_id : json) : io json :=
  content <- http_get (NOTION_BASE_URL ++ "/pages/" ++ py_str page_id) ;;
  page_data <- lift (response_json content) ;;
  blocks_content <- http_get (NOTION_BASE_URL ++ "/blocks/" ++ py_str page_id ++ "/children") ;;
  blocks_data <- lift (response_json blocks_content) ;;
  properties <- lift (py_get page_data "properties" (JDict [])) ;;
  results <- lift (py_get blocks_data "results" (JList [])) ;;
  ret (JDict (dict_of [("properties", properties); ("content", results)])).

(** The body of the loop over the pages of the listing. *)
Definition page_entry (page : json) : result json :=
  (properties <- py_get page "properties" (JDict []) ;;
   title_property <- py_get properties "Title" (JDict []) ;;
   title <- extract_text_from_title title_property ;;
   id <- py_get page "id" (JStr "") ;;
   properties1 <- py_get page "properties" (JDict []) ;;
   clients_property <- py_get properties1 "Clients" (JDict []) ;;
   clients <- extract_multi_select clients_property ;;
   created <- py_get page "created_time" (JStr "") ;;
   edited <- py_get page "last_edited_time" (JStr "") ;;
   id1 <- py_get page "id" (JStr "") ;;
   bare <- py_strip_hyphens id1 ;;
   properties2 <- py_get page "properties" (JDict []) ;;
   status_property <- py_get properties2 "Status" (JDict []) ;;
   status <- extract_select status_property ;;
   Ok (JDict (dict_of
     [("id", id);
      ("title", title);
      ("clients", clients);
      ("Created time", created);
      ("Last edited time", edited);
      ("url", JStr ("https://www.notion.so/" ++ bare));
      ("status", status)])))%py.

Definition listing_query : json :=
  JDict (dict_of
    [("page_size", JNum 500);
     ("sorts", JList [JDict (dict_of [("property", JStr "Created time");
                                      ("timestamp", JStr "created_time");
                                      ("direction", JStr "descending")])])]).

Definition show_all_notion_pages : io (list TextContent) :=
  try_http
    (content <- http_post (NOTION_BASE_URL ++ "/databases/" ++ DATABASE_ID ++ "/query")
                  listing_query ;;
     pages <- lift (response_json content) ;;
     formatted_pages <- lift (results <- py_get pages "results" (JList []) ;;
                              items <- py_iter results ;;
                              mapM page_entry items)%py ;;
     ret (text_result (json_dumps (JList formatted_pages))))
    (fun e => ret (text_result ("Error listing pages: " ++ e))).

(** The partial update of the status tool. *)
Definition status_update (target_status : json) : json :=
  JDict (dict_of
    [("properties", JDict (dict_of
       [("Status", JDict (dict_of
          [("status", JDict (dict_of [("name", target_status)]))]))]))]).

Definition notion_update_status (arguments : json) : io (list TextContent) :=
  try_http
    (page_id <- lift (py_get arguments "page_id" JNull) ;;
     target_status <- lift (py_get arguments "target_status" JNull) ;;
     if negb (truthy page_id) || negb (truthy target_status) then
       ret (text_result "Error: Both page_id and target_status are required.")
     else
       response <- http_patch (NOTION_BASE_URL ++ "/pages/" ++ py_str page_id)
                     (status_update target_status) ;;
       ret (text_result
              ("Successfully updated page status to '" ++ py_str target_status ++ "'.")))
    (fun e => ret (text_result
       ("Error updating status: " ++ e ++ newline
        ++ "Possible issues:" ++ newline
        ++ "1. Invalid page ID" ++ newline
        ++ "2. Invalid status value (must match one of the select options in your database)"
        ++ newline
        ++ "3. API permission issues (make sure your integration has write access)"))).

(** The dict comprehension over [properties.items()]. *)
Definition format_properties (properties : json) : result json :=
  (items <- py_items properties ;;
   formatted <- mapM (fun kv => v <- format_property_value (snd kv) ;; Ok (fst kv, v)) items ;;
   Ok (JDict (dict_of formatted)))%py.

Definition notion_read_page_content (arguments : json) : io (list TextContent) :=
  try_http
    (page_id <- lift (py_get arguments "page_id" JNull) ;;
     if negb (truthy page_id) then
       ret (text_result "Error: page_id is required.")
     else
       page_data <- get_page_content page_id ;;
       formatted_content <- lift
         (properties <- py_index page_data "properties" ;;
          title_property <- py_get properties "Title" (JDict []) ;;
          title <- extract_text_from_title title_property ;;
          properties1 <- py_index page_data "properties" ;;
          formatted <- format_properties properties1 ;;
          content <- py_index page_data "content" ;;
          items <- py_iter content ;;
          blocks <- mapM format_block items ;;
          Ok (JDict (dict_of
            [("title", title); ("properties", formatted); ("blocks", JList blocks)])))%py ;;
       ret (text_result (json_dumps formatted_content)))
    (fun e => ret (text_result ("Error reading page content: " ++ e))).

(** [str(n)] for a length. *)
Definition decimal (n : nat) : string := NilZero.string_of_uint (Nat.to_uint n).

Definition notion_update_page_content (arguments : json) : io (list TextContent) :=
  try_http
    (page_id <- lift (py_get arguments "page_id" JNull) ;;
     content <- lift (py_get arguments "content" JNull) ;;
     if negb (truthy page_id) || negb (truthy content) then
       ret (text_result "Error: Both page_id and content are required.")
     else
       blocks <- lift
         (items <- py_iter content ;;
          mapM (fun block =>
                  block_type <- py_index block "type" ;;
                  block_text <- py_index block "text" ;;
                  create_block_content block_type block_text) items)%py ;;
       response <- http_patch (NOTION_BASE_URL ++ "/blocks/" ++ py_str page_id ++ "/children")
                     (JDict (dict_of [("children", JList blocks)])) ;;
       ret (text_result
              ("Successfully updated page content with " ++ decimal (length blocks)
               ++ " blocks.")))
    (fun e => ret (text_result ("Error updating page content: " ++ e))).

(** The callout block that carries a comment. *)
Definition comment_block (comment icon : json) : json :=
  JDict (dict_of
    [("type", JStr "callout");
     ("object", JStr "block");
     ("callout", JDict (dict_of
        [("rich_text", JList
           [JDict (dict_of
              [("type", JStr "text");
               ("text", JDict (dict_of [("content", comment)]))])]);
         ("icon", JDict (dict_of [("type", JStr "emoji"); ("emoji", icon)]));
         ("color", JStr "gray_background")]))]).

Definition notion_add_comment (arguments : json) : io (list TextContent) :=
  try_http
    (page_id <- lift (py_get arguments "page_id" JNull) ;;
     comment <- lift (py_get arguments "comment" JNull) ;;
     icon <- lift (py_get arguments "icon" (JStr "💬")) ;;
     if negb (truthy page_id) || negb (truthy comment) then
       ret (text_result "Error: Both page_id and comment are required.")
     else
       response <- http_patch (NOTION_BASE_URL ++ "/blocks/" ++ py_str page_id ++ "/children")
                     (JDict (dict_of [("children", JList [comment_block comment icon])])) ;;
       ret (text_result "Successfully added comment to the page."))
    (fun e => ret (text_result ("Error adding comment: " ++ e))).

Definition call_tool (name : string) (arguments : json) : io (list TextContent) :=
  if (name =? "show_all_notion_pages")%string then show_all_notion_pages
  else if (name =? "notion_update_status")%string then notion_update_status arguments
  else if (name =? "notion_read_page_content")%string then notion_read_page_content arguments
  else if (name =? "notion_update_page_content")%string then
    notion_update_page_content arguments
  else if (name =? "notion_add_comment")%string then notion_add_comment arguments
  else lift (Raise (ValueError ("Unknown tool: " ++ name))).

(** One invocation: the handler starts with no request issued. *)
Definition invoke (name : string) (arguments : json) (w : world)
  : result (list TextContent) * trace :=
  call_tool name arguments w [].

End Configured.

End Server.
Export Server.

(** ** Vocabulary of the statements *)

Module Shape.

(** [d.get(k)]: the value under [k], [None] when there is none. *)
Definition field (d : dict) (k : string) : json :=
  match lookup k d with
  | Some v => v
  | None => JNull
  end.

(** The plain text of a well-formed rich-text run: a dict whose
    ["plain_text"], when present, is a str. *)
Definition plain_text_of (run : json) : option string :=
  match run with
  | JDict d =>
      match lookup "plain_text" d with
      | Some (JStr s) => Some s
      | None => Some ""
      | Some _ => None
      end
  | _ => None
  end.

(** The run list of the payload that block [b] keeps under its tag [t]:
    empty when the payload or its ["rich_text"] is absent. *)
Definition block_runs (b : dict) (t : string) : option (list json) :=
  match lookup t b with
  | None => Some []
  | Some (JDict c) =>
      match lookup "rich_text" c with
      | None => Some []
      | Some (JList runs) => Some runs
      | Some _ => None
      end
  | Some _ => None
  end.

(** The five property kinds [format_property_value] interprets. *)
Definition interpreted_kinds : list string :=
  ["title"; "rich_text"; "select"; "multi_select"; "date"].

(** The names the dispatcher recognizes: those of the catalog. *)
Definition known_tools : list string := map name list_tools.

(** The ["required"] list of the input schema of tool [n]; empty for a name
    that is not in the catalog. *)
Definition required_fields (n : string) : list string :=
  match find (fun t => (n =? name t)%string) list_tools with
  | Some t =>
      match inputSchema t with
      | JDict schema =>
          match lookup "required" schema with
          | Some (JList l) =>
              flat_map (fun v => match v with JStr s => [s] | _ => [] end) l
          | _ => []
          end
      | _ => []
      end
  | None => []
  end.

(** The text a tool answers when a required argument is missing. *)
Definition missing_error (n : string) : string :=
  if (n =? "notion_update_status")%string then
    "Error: Both page_id and target_status are required."
  else if (n =? "notion_read_page_content")%string then
    "Error: page_id is required."
  else if (n =? "notion_update_page_content")%string then
    "Error: Both page_id and content are required."
  else if (n =? "notion_add_comment")%string then
    "Error: Both page_id and comment are required."
  else "".

(** The text a tool answers when a call to the Notion API fails with
    message [msg]. *)
Definition failure_text (n msg : string) : string :=
  if (n =? "show_all_notion_pages")%string then "Error listing pages: " ++ msg
  else if (n =? "notion_update_status")%string then
    "Error updating status: " ++ msg ++ newline
    ++ "Possible issues:" ++ newline
    ++ "1. Invalid page ID" ++ newline
    ++ "2. Invalid status value (must match one of the select options in your database)"
    ++ newline
    ++ "3. API permission issues (make sure your integration has write access)"
  else if (n =? "notion_read_page_content")%string then
    "Error reading page content: " ++ msg
  else if (n =? "notion_update_page_content")%string then
    "Error updating page content: " ++ msg
  else if (n =? "notion_add_comment")%string then "Error adding comment: " ++ msg
  else "".

(** A computation stops at the first failed call: it only extends the trace,
    and a failed exchange among the new ones makes it raise that failure. *)
Definition fail_stop {A} (m : io A) : Prop :=
  forall (w : world) (tr : trace),
    exists new : trace,
      snd (m w tr) = (tr ++ new)%list
      /\ forall rq msg, In (rq, Failure msg) new -> fst (m w tr) = Raise (HTTPError msg).

(** Whatever a computation returns is one [TextContent] of type text. *)
Definition returns_text (m : io (list TextContent)) : Prop :=
  forall (w : world) (tr : trace) (l : list TextContent),
    fst (m w tr) = Ok l -> exists t, l = text_result t.

Fixpoint all_some {A} (l : list (option A)) : option (list A) :=
  match l with
  | [] => Some []
  | Some a :: l' =>
      match all_some l' with
      | Some r => Some (a :: r)
      | None => None
      end
  | None :: _ => None
  end.

(** [d.get(k, {})]. *)
Definition property (d : dict) (k : string) : json :=
  match lookup k d with
  | Some v => v
  | None => JDict []
  end.

(** A page of the listing, as the summary needs it. *)
Record page_view : Type := mk_page_view {
  pv_id : string;
  pv_title : list string;       (* plain texts of the runs of "Title" *)
  pv_clients : list string;     (* option names of "Clients" *)
  pv_status : string;           (* option name of "Status", empty when none *)
  pv_created : string;
  pv_edited : string
}.

(** The plain texts of the runs of a title property; none when the property
    or its run list is absent. *)
Definition title_of (v : json) : option (list string) :=
  match v with
  | JDict tp =>
      match lookup "title" tp with
      | Some (JList runs) => all_some (map plain_text_of runs)
      | None => Some []
      | Some _ => None
      end
  | _ => None
  end.

Definition name_of (option_ : json) : option string :=
  match option_ with
  | JDict o =>
      match lookup "name" o with
      | Some (JStr n) => Some n
      | None => Some ""
      | Some _ => None
      end
  | _ => None
  end.

(** The option names of a property, in order, when its tag is multi_select;
    none for another tag. *)
Definition clients_of (v : json) : option (list string) :=
  match v with
  | JDict cp =>
      if is_str (field cp "type") "multi_select" then
        match lookup "multi_select" cp with
        | Some (JList options) => all_some (map name_of options)
        | None => Some []
        | Some _ => None
        end
      else Some []
  | _ => None
  end.

(** The name of the selected option of a property when its tag is select and
    an option is selected; the empty string otherwise. *)
Definition status_of (v : json) : option string :=
  match v with
  | JDict sp =>
      if is_str (field sp "type") "select" then
        match lookup "select" sp with
        | Some (JDict sel) => name_of (JDict sel)
        | Some JNull | None => Some ""
        | Some _ => None
        end
      else Some ""
  | _ => None
  end.

(** Reading a page object of the Notion API: string id and timestamps, a
    dict of properties. *)
Definition page_view_of (page : json) : option page_view :=
  match page with
  | JDict p =>
      match lookup "id" p, lookup "created_time" p,
            lookup "last_edited_time" p, lookup "properties" p with
      | Some (JStr id), Some (JStr created), Some (JStr edited), Some (JDict props) =>
          match title_of (property props "Title"),
                clients_of (property props "Clients"),
                status_of (property props "Status") with
          | Some title, Some clients, Some status =>
              Some {| pv_id := id; pv_title := title; pv_clients := clients;
                      pv_status := status; pv_created := created;
                      pv_edited := edited |}
          | _, _, _ => None
          end
      | _, _, _, _ => None
      end
  | _ => None
  end.

(** The object the listing shows for a page. *)
Definition summary (v : page_view) : json :=
  JDict [("id", JStr (pv_id v));
         ("title", JStr (String.concat " " (pv_title v)));
         ("clients", JList (map JStr (pv_clients v)));
         ("Created time", JStr (pv_created v));
         ("Last edited time", JStr (pv_edited v));
         ("url", JStr ("https://www.notion.so/" ++ remove_char "-"%char (pv_id v)));
         ("status", JStr (pv_status v))].

(** The arguments without the entry [k]. *)
Definition without (k : string) (d : dict) : dict :=
  filter (fun kv => negb (fst kv =? k)%string) d.

End Shape.
Export Shape.

(** ** Vocabulary for the handlers' conduct *)

Module Conduct.

(** The option name [format_property_value] lists for an option of a
    multi-select: the value under ["name"], null when there is none. *)
Definition listed_name (option_ : json) : option json :=
  match option_ with
  | JDict o => Some (field o "name")
  | _ => None
  end.


(** An entry that has both keys the update tool indexes. *)
Definition has_type_and_text (entry : json) : bool :=
  match entry with
  | JDict d =>
      match lookup "type" d, lookup "text" d with
      | Some _, Some _ => true
      | _, _ => false
      end
  | _ => false
  end.

(** The single rich-text run the write path builds for a text. *)
Definition text_run (x : json) : json :=
  JDict [("type", JStr "text"); ("text", JDict [("content", x)])].

(** The block the write path builds for a type other than ["type"] and
    ["object"]. *)
Definition written_block (tx : string * json) : json :=
  JDict [("type", JStr (fst tx));
         ("object", JStr "block");
         (fst tx, JDict [("rich_text", JList [text_run (snd tx)])])].

Definition is_reply (ex : exchange) : bool :=
  match snd ex with
  | Reply _ => true
  | Failure _ => false
  end.

(** A trace in which only the last exchange may be a failure. *)
Definition failure_only_last (new : trace) : Prop :=
  forallb is_reply new = true
  \/ exists pre rq msg,
       new = (pre ++ [(rq, Failure msg)])%list /\ forallb is_reply pre = true.

(** A computation that sends nothing after a failed call, and raises the
    failure it met. *)
Definition halts_on_failure {A} (m : io A) : Prop :=
  forall (w : world) (tr : trace),
    exists new : trace,
      snd (m w tr) = (tr ++ new)%list
      /\ (forallb is_reply new = true
          \/ exists pre rq msg,
               new = (pre ++ [(rq, Failure msg)])%list
               /\ forallb is_reply pre = true
               /\ fst (m w tr) = Raise (HTTPError msg)).

(** A computation that issues at most [k] requests. *)
Definition at_most (k : nat) {A} (m : io A) : Prop :=
  forall (w : world) (tr : trace),
    exists new : trace, snd (m w tr) = (tr ++ new)%list /\ length new <= k.



End Conduct.
Export Conduct.

(** ** Properties of the codecs *)

Lemma truthy_nonempty_str (s : string) : s <> "" -> truthy (JStr s) = true.
Proof.
  intros H. simpl. destruct (String.eqb_spec s ""); [contradiction | reflexivity].
Qed.

Lemma truthy_field_dict (d : dict) (k : string) (v : json) :
  lookup k d = Some v -> truthy (JDict d) = true.
Proof.
  destruct d; [discriminate | reflexivity].
Qed.

Lemma is_str_not_in (s : string) (l : list string) :
  ~ In s l -> existsb (is_str (JStr s)) l = false.
Proof.
  induction l as [|x l IH]; intros H; [reflexivity|].
  simpl. destruct (String.eqb_spec s x) as [->|_].
  - exfalso. apply H. left. reflexivity.
  - apply IH. intros Hin. apply H. right. exact Hin.
Qed.

Lemma mapM_as_str (l : list string) : mapM as_str (map JStr l) = Ok l.
Proof.
  induction l as [|s l IH]; [reflexivity|].
  simpl. rewrite IH. reflexivity.
Qed.

Lemma mapM_plain_text (runs : list json) (frags : list string) :
  map plain_text_of runs = map Some frags ->
  mapM (fun part => py_get part "plain_text" (JStr "")) runs = Ok (map JStr frags).
Proof.
  revert frags. induction runs as [|r runs IH]; intros [|f frags] H;
    try discriminate; [reflexivity|].
  simpl in H. injection H as Hr Hrest.
  simpl. rewrite (IH _ Hrest).
  destruct r as [| | | |?|d]; try discriminate.
  simpl in *. destruct (lookup "plain_text" d) as [[| | |s| |]|];
    try discriminate; injection Hr as ->; reflexivity.
Qed.

Lemma join_plain_text_runs (runs : list json) (frags : list string) :
  map plain_text_of runs = map Some frags ->
  join_plain_text (JList runs) = Ok (JStr (String.concat " " frags)).
Proof.
  intros H. unfold join_plain_text, py_join. simpl.
  rewrite (mapM_plain_text _ _ H). simpl.
  rewrite mapM_as_str. reflexivity.
Qed.

(** C1, as the code has it: for every text-like block type [t] and every
    text [s], [format_block] applied to the result of
    [create_block_content t s] yields [{type: t, text: ""}].  The run that
    [create_block_content] builds keeps its text under ["text"]["content"] and
    has no ["plain_text"], the only key [format_block] reads, so the text does
    not come back. *)
Theorem create_then_format_loses_text (t : string) (s : json) :
  In t text_like ->
  bind (create_block_content (JStr t) s) format_block
  = Ok (JDict [("type", JStr t); ("text", JStr "")]).
Proof.
  intros H. unfold text_like in H. simpl in H.
  repeat (destruct H as [<-|H]; [reflexivity|]). contradiction.
Qed.

Lemma create_then_format_loses_text_witness :
  bind (create_block_content (JStr "heading_2") (JStr "Hi")) format_block
  = Ok (JDict [("type", JStr "heading_2"); ("text", JStr "")]).
Proof.
  apply (create_then_format_loses_text "heading_2" (JStr "Hi")).
  simpl. tauto.
Defined.

(** C1 as the specification words it fails on its own example:
    [create_block_content("paragraph", "Hi")] followed by [format_block]
    does not yield [{type: "paragraph", text: "Hi"}]. *)
Lemma create_then_format_paragraph_hi :
  In "paragraph" text_like
  /\ bind (create_block_content (JStr "paragraph") (JStr "Hi")) format_block
     <> Ok (JDict [("type", JStr "paragraph"); ("text", JStr "Hi")]).
Proof.
  split; [simpl; tauto | discriminate].
Qed.

Lemma is_str_other (t s : string) : t <> s -> is_str (JStr t) s = false.
Proof.
  intros H. simpl. destruct (String.eqb_spec t s); [contradiction | reflexivity].
Qed.

(** C5: a property object whose type tag is none of title, rich_text,
    select, multi_select, date is formatted as the value it keeps under that
    tag, unchanged; a null (absent) property is formatted as null. *)
Theorem format_property_value_pass_through :
  (forall (d : dict) (t : string) (v : json),
      lookup "type" d = Some (JStr t) ->
      ~ In t interpreted_kinds ->
      lookup t d = Some v ->
      format_property_value (JDict d) = Ok v)
  /\ format_property_value JNull = Ok JNull.
Proof.
  split; [|reflexivity].
  intros d t v Hty Hnot Hv.
  unfold format_property_value.
  rewrite (truthy_field_dict _ _ _ Hty). simpl negb. cbv iota.
  unfold py_get at 1. rewrite Hty. unfold bind at 1.
  unfold interpreted_kinds in Hnot.
  rewrite !is_str_other by (intros ->; apply Hnot; simpl; tauto).
  simpl. rewrite Hv. reflexivity.
Qed.

Lemma format_property_value_pass_through_witness :
  format_property_value
    (JDict [("id", JStr "x"); ("type", JStr "number"); ("number", JNum 4)])
  = Ok (JNum 4).
Proof.
  apply (proj1 format_property_value_pass_through _ "number").
  - reflexivity.
  - simpl. intros [H|[H|[H|[H|[H|[]]]]]]; discriminate H.
  - reflexivity.
Defined.

(** The text-like case of [format_block]. *)
Lemma format_block_text_like (b : dict) (t : string) (runs : list json)
    (frags : list string) :
  lookup "type" b = Some (JStr t) ->
  In t text_like ->
  block_runs b t = Some runs ->
  map plain_text_of runs = map Some frags ->
  format_block (JDict b)
  = Ok (JDict [("type", JStr t); ("text", JStr (String.concat " " frags))]).
Proof.
  intros Hty Hin Hruns Hfrags.
  assert (Hjoin := join_plain_text_runs _ _ Hfrags).
  assert (Hnil : join_plain_text (JList []) = Ok (JStr "")) by reflexivity.
  unfold format_block. unfold py_get at 1. rewrite Hty. unfold bind at 1.
  unfold block_runs in Hruns.
  unfold text_like in Hin. simpl in Hin.
  repeat (destruct Hin as [<-|Hin];
    [ simpl;
      match type of Hruns with
      | context [lookup ?k b] => destruct (lookup k b) as [[| | | | |c]|]
      end; try discriminate;
      [ simpl; destruct (lookup "rich_text" c) as [[| | | |l|]|];
        try discriminate; injection Hruns as <-;
        [ rewrite Hjoin; reflexivity
        | destruct frags; [reflexivity | discriminate] ]
      | injection Hruns as <-; destruct frags; [reflexivity | discriminate] ]
    | ]).
  contradiction.
Qed.

(** C6, as the code has it.  For every block object:
    - when the type tag is absent, null or otherwise false for Python (the
      empty string is), [format_block] returns null;
    - when the tag is one of the six text-like kinds and the runs under it are
      well formed, it returns [{type, text}], the text being the plain-text
      fragments of the runs joined with single spaces;
    - for every other tag that is a non-empty string it returns
      [{type, content}], the content being the value kept under the tag,
      unchanged, or [{}] when there is none. *)
Theorem format_block_cases (b : dict) :
  (truthy (field b "type") = false -> format_block (JDict b) = Ok JNull)
  /\ (forall (t : string) (runs : list json) (frags : list string),
        lookup "type" b = Some (JStr t) ->
        In t text_like ->
        block_runs b t = Some runs ->
        map plain_text_of runs = map Some frags ->
        format_block (JDict b)
        = Ok (JDict [("type", JStr t); ("text", JStr (String.concat " " frags))]))
  /\ (forall t : string,
        lookup "type" b = Some (JStr t) ->
        t <> "" ->
        ~ In t text_like ->
        format_block (JDict b)
        = Ok (JDict [("type", JStr t);
                     ("content", match lookup t b with
                                 | Some v => v
                                 | None => JDict []
                                 end)])).
Proof.
  split; [|split].
  - intros H. unfold format_block, py_get, bind. fold (field b "type").
    rewrite H. reflexivity.
  - intros t runs frags. apply format_block_text_like.
  - intros t Hty Hne Hnot.
    unfold format_block. unfold py_get at 1. rewrite Hty. unfold bind at 1.
    rewrite (truthy_nonempty_str _ Hne). simpl negb. cbv iota.
    unfold py_get_key, bind.
    unfold text_like in Hnot.
    rewrite is_str_not_in by (intros H; apply Hnot; simpl in *; tauto).
    rewrite !is_str_other by (intros ->; apply Hnot; simpl; tauto).
    reflexivity.
Qed.

Lemma format_block_cases_witness :
  format_block (JDict [("id", JStr "b1")]) = Ok JNull
  /\ format_block
       (JDict [("type", JStr "paragraph");
               ("paragraph", JDict [("rich_text", JList
                  [JDict [("plain_text", JStr "Hello")];
                   JDict [("plain_text", JStr "world")]])])])
     = Ok (JDict [("type", JStr "paragraph"); ("text", JStr "Hello world")])
  /\ format_block
       (JDict [("type", JStr "image"); ("image", JDict [("caption", JList [])])])
     = Ok (JDict [("type", JStr "image");
                  ("content", JDict [("caption", JList [])])]).
Proof.
  split; [|split].
  - apply (proj1 (format_block_cases [("id", JStr "b1")])). reflexivity.
  - apply (proj1 (proj2 (format_block_cases _)) "paragraph"
             [JDict [("plain_text", JStr "Hello")]; JDict [("plain_text", JStr "world")]]
             ["Hello"; "world"]).
    + reflexivity.
    + simpl. tauto.
    + reflexivity.
    + reflexivity.
  - apply (proj2 (proj2 (format_block_cases
             [("type", JStr "image"); ("image", JDict [("caption", JList [])])])) "image").
    + reflexivity.
    + discriminate.
    + simpl. intros [H|[H|[H|[H|[H|[H|[]]]]]]]; discriminate H.
Defined.

(** C6 as the specification words it fails on a block whose type tag is
    present and empty: the tag is not absent and is none of the text-like
    kinds, yet [format_block] returns null, not [{type, content}]. *)
Lemma format_block_empty_tag :
  lookup "type" [("type", JStr "")] = Some (JStr "")
  /\ ~ In "" text_like
  /\ format_block (JDict [("type", JStr "")]) = Ok JNull
  /\ format_block (JDict [("type", JStr "")])
     <> Ok (JDict [("type", JStr ""); ("content", JDict [])]).
Proof.
  split; [reflexivity|].
  split; [simpl; intros [H|[H|[H|[H|[H|[H|[]]]]]]]; discriminate H|].
  split; [reflexivity | discriminate].
Qed.

(** A run that is itself a space is joined like any other: three runs
    ["Hello"], [" "], ["world"] give the two words three spaces apart. *)
Example format_block_hello_world :
  format_block
    (JDict [("type", JStr "paragraph");
            ("paragraph", JDict [("rich_text", JList
               [JDict [("plain_text", JStr "Hello")];
                JDict [("plain_text", JStr " ")];
                JDict [("plain_text", JStr "world")]])])])
  = Ok (JDict [("type", JStr "paragraph"); ("text", JStr "Hello   world")]).
Proof. reflexivity. Qed.

Lemma is_str_field_other (d : dict) (k s : string) :
  lookup k d <> Some (JStr s) -> is_str (field d k) s = false.
Proof.
  intros H. unfold field. destruct (lookup k d) as [[| | |s'| |]|]; try reflexivity.
  simpl. destruct (String.eqb_spec s' s) as [->|_]; [contradiction | reflexivity].
Qed.

(** C7: on a property object, [extract_select] returns the name of the
    selected option when the type tag is select and a selection exists, and
    the empty string otherwise: when the tag is not select, and when the tag
    is select and the selection is absent or null (the empty string then, not
    null). *)
Theorem extract_select_cases (d : dict) :
  (forall (sel : dict) (v : json),
      lookup "type" d = Some (JStr "select") ->
      lookup "select" d = Some (JDict sel) ->
      lookup "name" sel = Some v ->
      extract_select (JDict d) = Ok v)
  /\ (lookup "type" d <> Some (JStr "select") ->
      extract_select (JDict d) = Ok (JStr ""))
  /\ (lookup "select" d = None \/ lookup "select" d = Some JNull ->
      extract_select (JDict d) = Ok (JStr "")).
Proof.
  split; [|split].
  - intros sel v Hty Hsel Hname.
    unfold extract_select.
    rewrite (truthy_field_dict _ _ _ Hty). simpl negb. cbv iota.
    unfold py_get at 1. rewrite Hty. unfold bind at 1. simpl is_str. simpl negb.
    cbv iota. unfold py_get at 1. rewrite Hsel. unfold bind.
    rewrite (truthy_field_dict _ _ _ Hname). unfold py_get. rewrite Hname.
    reflexivity.
  - intros Hty. unfold extract_select.
    destruct (truthy (JDict d)); [|reflexivity]. simpl negb. cbv iota.
    unfold py_get, bind. fold (field d "type").
    rewrite (is_str_field_other _ _ _ Hty). reflexivity.
  - intros Hsel. unfold extract_select.
    destruct (truthy (JDict d)); [|reflexivity]. simpl negb. cbv iota.
    unfold py_get, bind.
    destruct (is_str _ "select"); [|reflexivity]. simpl negb. cbv iota.
    destruct Hsel as [-> | ->]; reflexivity.
Qed.

Lemma extract_select_cases_witness :
  extract_select
    (JDict [("id", JStr "s"); ("type", JStr "select");
            ("select", JDict [("id", JStr "o1"); ("name", JStr "Done")])])
  = Ok (JStr "Done")
  /\ extract_select
       (JDict [("type", JStr "multi_select"); ("multi_select", JList [])])
     = Ok (JStr "")
  /\ extract_select (JDict [("type", JStr "select"); ("select", JNull)])
     = Ok (JStr "").
Proof.
  split; [|split].
  - apply (proj1 (extract_select_cases _) [("id", JStr "o1"); ("name", JStr "Done")]);
      reflexivity.
  - apply (proj1 (proj2 (extract_select_cases _))). discriminate.
  - apply (proj2 (proj2 (extract_select_cases _))). right. reflexivity.
Defined.

(** ** Properties of the dispatcher *)

Lemma lookup_without (k : string) (d : dict) : lookup k (without k d) = None.
Proof.
  induction d as [|[k' v] d IH]; [reflexivity|].
  simpl. destruct (String.eqb_spec k' k) as [->|Hne]; simpl; [exact IH|].
  destruct (String.eqb_spec k' k); [contradiction | exact IH].
Qed.

Lemma field_without (k : string) (d : dict) : truthy (field (without k d) k) = false.
Proof.
  unfold field. rewrite lookup_without. reflexivity.
Qed.

Section Dispatch.

Variables (key db : string) (repr : json -> string).

Lemma update_status_guard (args : dict) (w : world) (tr : trace) :
  negb (truthy (field args "page_id")) || negb (truthy (field args "target_status")) = true ->
  notion_update_status key repr (JDict args) w tr
  = (Ok (text_result "Error: Both page_id and target_status are required."), tr).
Proof.
  intros H. unfold notion_update_status, try_http, iobind, lift, py_get.
  fold (field args "page_id"). fold (field args "target_status").
  rewrite H. reflexivity.
Qed.

Lemma read_page_content_guard (args : dict) (w : world) (tr : trace) :
  negb (truthy (field args "page_id")) = true ->
  notion_read_page_content key repr (JDict args) w tr
  = (Ok (text_result "Error: page_id is required."), tr).
Proof.
  intros H. unfold notion_read_page_content, try_http, iobind, lift, py_get.
  fold (field args "page_id"). rewrite H. reflexivity.
Qed.

Lemma update_page_content_guard (args : dict) (w : world) (tr : trace) :
  negb (truthy (field args "page_id")) || negb (truthy (field args "content")) = true ->
  notion_update_page_content key repr (JDict args) w tr
  = (Ok (text_result "Error: Both page_id and content are required."), tr).
Proof.
  intros H. unfold notion_update_page_content, try_http, iobind, lift, py_get.
  fold (field args "page_id"). fold (field args "content").
  rewrite H. reflexivity.
Qed.

Lemma add_comment_guard (args : dict) (w : world) (tr : trace) :
  negb (truthy (field args "page_id")) || negb (truthy (field args "comment")) = true ->
  notion_add_comment key repr (JDict args) w tr
  = (Ok (text_result "Error: Both page_id and comment are required."), tr).
Proof.
  intros H. unfold notion_add_comment, try_http, iobind, lift, py_get.
  fold (field args "page_id"). fold (field args "comment").
  rewrite H. reflexivity.
Qed.

(** A required argument that Python takes for false stops the handler at its
    guard, before any request. *)
Lemma falsy_required_rejected (n : string) (args : dict) (k : string) (w : world) :
  In k (required_fields n) ->
  truthy (field args k) = false ->
  invoke key db repr n (JDict args) w = (Ok (text_result (missing_error n)), []).
Proof.
  intros Hin Hk. unfold invoke, call_tool, missing_error.
  unfold required_fields in Hin. simpl in Hin.
  destruct (String.eqb_spec n "show_all_notion_pages") as [->|_];
    [simpl in Hin; contradiction|].
  destruct (String.eqb_spec n "notion_update_status") as [->|_].
  { simpl in Hin. apply update_status_guard.
    destruct Hin as [<-|[<-|[]]]; rewrite Hk; simpl; auto using orb_true_r. }
  destruct (String.eqb_spec n "notion_read_page_content") as [->|_].
  { simpl in Hin. apply read_page_content_guard.
    destruct Hin as [<-|[]]; rewrite Hk; reflexivity. }
  destruct (String.eqb_spec n "notion_update_page_content") as [->|_].
  { simpl in Hin. apply update_page_content_guard.
    destruct Hin as [<-|[<-|[]]]; rewrite Hk; simpl; auto using orb_true_r. }
  destruct (String.eqb_spec n "notion_add_comment") as [->|_].
  { simpl in Hin. apply add_comment_guard.
    destruct Hin as [<-|[<-|[]]]; rewrite Hk; simpl; auto using orb_true_r. }
  simpl in Hin. contradiction.
Qed.

(** C8: for each tool of the catalog, when an argument its schema requires
    is missing from the arguments mapping, the handler answers with the
    tool's textual error and has issued no request. *)
Theorem missing_required_argument (n : string) (args : dict) (k : string) (w : world) :
  In n known_tools ->
  In k (required_fields n) ->
  lookup k args = None ->
  invoke key db repr n (JDict args) w = (Ok (text_result (missing_error n)), []).
Proof.
  intros _ Hin Hk. apply (falsy_required_rejected n args k w Hin).
  unfold field. rewrite Hk. reflexivity.
Qed.

(** C9: a tool name outside the catalog makes the dispatcher raise
    [ValueError]; no textual result is returned and no request is issued. *)
Theorem unknown_tool_raises (n : string) (arguments : json) (w : world) :
  ~ In n known_tools ->
  invoke key db repr n arguments w = (Raise (ValueError ("Unknown tool: " ++ n)), []).
Proof.
  intros H. unfold invoke, call_tool.
  unfold known_tools in H. simpl in H.
  repeat match goal with
  | |- context [String.eqb n ?s] =>
      destruct (String.eqb_spec n s) as [->|_]; [exfalso; apply H; tauto|]
  end.
  reflexivity.
Qed.

(** C10: the guards test truth, not presence.  An invocation of
    [notion_update_page_content] whose content is the empty list, and an
    invocation of any tool that requires [page_id] whose [page_id] is the
    empty string, gets the tool's error for a missing argument, exactly as
    the same invocation without that argument does, and issues no request. *)
Theorem falsy_argument_rejected (args : dict) (w : world) :
  (lookup "content" args = Some (JList []) ->
     invoke key db repr "notion_update_page_content" (JDict args) w
     = (Ok (text_result (missing_error "notion_update_page_content")), [])
     /\ invoke key db repr "notion_update_page_content" (JDict args) w
        = invoke key db repr "notion_update_page_content"
            (JDict (without "content" args)) w)
  /\ (forall n : string,
        In "page_id" (required_fields n) ->
        lookup "page_id" args = Some (JStr "") ->
        invoke key db repr n (JDict args) w = (Ok (text_result (missing_error n)), [])
        /\ invoke key db repr n (JDict args) w
           = invoke key db repr n (JDict (without "page_id" args)) w).
Proof.
  split.
  - intros H.
    assert (Hreq : In "content" (required_fields "notion_update_page_content"))
      by (simpl; tauto).
    rewrite (falsy_required_rejected _ (without "content" args) _ w Hreq
               (field_without _ _)).
    assert (E : truthy (field args "content") = false)
      by (unfold field; rewrite H; reflexivity).
    split; apply (falsy_required_rejected _ args _ w Hreq E).
  - intros n Hreq H.
    rewrite (falsy_required_rejected _ (without "page_id" args) _ w Hreq
               (field_without _ _)).
    assert (E : truthy (field args "page_id") = false)
      by (unfold field; rewrite H; reflexivity).
    split; apply (falsy_required_rejected _ args _ w Hreq E).
Qed.

(** The dispatcher on each name of the catalog. *)
Lemma call_tool_show_all (arguments : json) :
  call_tool key db repr "show_all_notion_pages" arguments = show_all_notion_pages key db.
Proof. reflexivity. Qed.

Lemma call_tool_update_status (arguments : json) :
  call_tool key db repr "notion_update_status" arguments
  = notion_update_status key repr arguments.
Proof. reflexivity. Qed.

Lemma call_tool_read_page_content (arguments : json) :
  call_tool key db repr "notion_read_page_content" arguments
  = notion_read_page_content key repr arguments.
Proof. reflexivity. Qed.

Lemma call_tool_update_page_content (arguments : json) :
  call_tool key db repr "notion_update_page_content" arguments
  = notion_update_page_content key repr arguments.
Proof. reflexivity. Qed.

Lemma call_tool_add_comment (arguments : json) :
  call_tool key db repr "notion_add_comment" arguments
  = notion_add_comment key repr arguments.
Proof. reflexivity. Qed.

(** The status tool with two non-empty strings: one PATCH of the page, then
    the confirmation, or the error text when the call fails. *)
Lemma update_status_run (args : dict) (p s : string) (w : world) :
  lookup "page_id" args = Some (JStr p) -> p <> "" ->
  lookup "target_status" args = Some (JStr s) -> s <> "" ->
  let rq := {| meth := PATCH;
               url := NOTION_BASE_URL ++ "/pages/" ++ p;
               headers := notion_headers key;
               payload := Some (status_update (JStr s)) |} in
  invoke key db repr "notion_update_status" (JDict args) w
  = (match w 0 rq with
     | Reply _ => Ok (text_result ("Successfully updated page status to '" ++ s ++ "'."))
     | Failure msg => Ok (text_result (failure_text "notion_update_status" msg))
     end,
     [(rq, w 0 rq)]).
Proof.
  intros Hp Hpne Hs Hsne rq.
  unfold invoke. rewrite call_tool_update_status.
  unfold notion_update_status, try_http, iobind, lift, py_get, http_patch, send, ret,
    py_str.
  rewrite Hp, Hs.
  rewrite (truthy_nonempty_str _ Hpne), (truthy_nonempty_str _ Hsne).
  change (negb true || negb true) with false. cbv beta iota zeta.
  change (length (@nil exchange)) with 0. fold rq.
  destruct (w 0 rq); reflexivity.
Qed.

(** C2, the code at [page_id = "abc"], [target_status = "Done"]: exactly one
    request is issued, a PATCH of [pages/abc], and its body sets ["Status"]
    under the key ["status"]; it is not the select-typed value
    [{"select": {"name": "Done"}}] that the listing reads back through
    [extract_select]. *)
Theorem update_status_sends_status_key (w : world) :
  let arguments := JDict [("page_id", JStr "abc"); ("target_status", JStr "Done")] in
  let sent :=
    {| meth := PATCH;
       url := "https://api.notion.com/v1/pages/abc";
       headers := notion_headers key;
       payload := Some (JDict [("properties", JDict [("Status",
                    JDict [("status", JDict [("name", JStr "Done")])])])]) |} in
  snd (invoke key db repr "notion_update_status" arguments w) = [(sent, w 0 sent)]
  /\ payload sent
     <> Some (JDict [("properties", JDict [("Status",
                JDict [("select", JDict [("name", JStr "Done")])])])])
  /\ extract_select (JDict [("type", JStr "status");
                            ("status", JDict [("name", JStr "Done")])])
     = Ok (JStr "").
Proof.
  intros arguments sent. split; [|split].
  - unfold arguments.
    rewrite (update_status_run _ "abc" "Done" w);
      [reflexivity | reflexivity | discriminate | reflexivity | discriminate].
  - discriminate.
  - reflexivity.
Qed.

(** *** Failures of the Notion API *)

Lemma fail_stop_ret {A} (a : A) : fail_stop (ret a).
Proof.
  intros w tr. exists []. split; [simpl; rewrite app_nil_r; reflexivity|].
  intros rq msg [].
Qed.

Lemma fail_stop_lift {A} (r : result A) : fail_stop (lift r).
Proof.
  intros w tr. exists []. split; [simpl; rewrite app_nil_r; reflexivity|].
  intros rq msg [].
Qed.

Lemma fail_stop_send (rq : request) : fail_stop (send rq).
Proof.
  intros w tr. exists [(rq, w (length tr) rq)]. split; [reflexivity|].
  intros rq' msg [H|[]]. injection H as _ Hm. unfold send. simpl.
  rewrite Hm. reflexivity.
Qed.

Lemma fail_stop_bind {A B} (m : io A) (k : A -> io B) :
  fail_stop m -> (forall a, fail_stop (k a)) -> fail_stop (iobind m k).
Proof.
  intros Hm Hk w tr. destruct (Hm w tr) as [new1 [E1 F1]].
  unfold iobind. destruct (m w tr) as [[a|e] tr'] eqn:Em; simpl in E1, F1; subst tr'.
  - destruct (Hk a w (tr ++ new1)%list) as [new2 [E2 F2]].
    exists (new1 ++ new2)%list. split; [rewrite E2; symmetry; apply app_assoc|].
    intros rq msg Hin. apply in_app_or in Hin. destruct Hin as [Hin|Hin].
    + discriminate (F1 rq msg Hin).
    + apply (F2 rq msg Hin).
  - exists new1. split; [reflexivity|].
    intros rq msg Hin. injection (F1 rq msg Hin) as ->. reflexivity.
Qed.

Lemma fail_stop_if {A} (c : bool) (m1 m2 : io A) :
  fail_stop m1 -> fail_stop m2 -> fail_stop (if c then m1 else m2).
Proof.
  destruct c; auto.
Qed.

(** At the handler boundary a failure of the body becomes the answer. *)
Lemma try_http_converts {A} (body : io A) (h : string -> A) (w : world) (tr : trace) :
  fail_stop body ->
  exists new : trace,
    snd (try_http body (fun e => ret (h e)) w tr) = (tr ++ new)%list
    /\ forall rq msg, In (rq, Failure msg) new ->
         fst (try_http body (fun e => ret (h e)) w tr) = Ok (h msg).
Proof.
  intros Hb. destruct (Hb w tr) as [new [E F]]. exists new.
  unfold try_http. destruct (body w tr) as [[a|e] tr'] eqn:Eb; simpl in E, F.
  - split; [exact E|]. intros rq msg Hin. discriminate (F rq msg Hin).
  - destruct e; (split; [exact E|]); intros rq m Hin; specialize (F rq m Hin);
      try discriminate F.
    injection F as ->. reflexivity.
Qed.

Lemma try_http_never_reraises {A} (body : io A) (h : string -> A) (w : world)
    (tr : trace) (msg : string) :
  fst (try_http body (fun e => ret (h e)) w tr) <> Raise (HTTPError msg).
Proof.
  unfold try_http. destruct (body w tr) as [[a|e] tr']; [discriminate|].
  destruct e; discriminate.
Qed.

Lemma returns_text_ret (t : string) : returns_text (ret (text_result t)).
Proof.
  intros w tr l H. injection H as <-. exists t. reflexivity.
Qed.

Lemma returns_text_bind {A} (m : io A) (k : A -> io (list TextContent)) :
  (forall a, returns_text (k a)) -> returns_text (iobind m k).
Proof.
  intros Hk w tr l. unfold iobind. destruct (m w tr) as [[a|e] tr'].
  - apply Hk.
  - discriminate.
Qed.

Lemma returns_text_if (c : bool) (m1 m2 : io (list TextContent)) :
  returns_text m1 -> returns_text m2 -> returns_text (if c then m1 else m2).
Proof.
  destruct c; auto.
Qed.

Lemma returns_text_try (body : io (list TextContent)) (h : string -> string) :
  returns_text body ->
  returns_text (try_http body (fun e => ret (text_result (h e)))).
Proof.
  intros Hb w tr l. unfold try_http.
  specialize (Hb w tr). destruct (body w tr) as [[a|e] tr']; [apply Hb|].
  destruct e; try discriminate.
  intros H. injection H as <-. eexists. reflexivity.
Qed.

Ltac fail_stop_steps :=
  repeat first
    [ apply fail_stop_ret
    | apply fail_stop_lift
    | apply fail_stop_send
    | apply fail_stop_if
    | apply fail_stop_bind; [|intro] ].

Ltac returns_text_steps :=
  repeat first
    [ apply returns_text_ret
    | apply returns_text_if
    | apply returns_text_bind; intro ].

(** A handler of the shape all five have. *)
Lemma handler_boundary (body : io (list TextContent)) (h : string -> string) (w : world) :
  fail_stop body ->
  returns_text body ->
  let run := try_http body (fun e => ret (text_result (h e))) w [] in
  (forall rq msg, In (rq, Failure msg) (snd run) -> fst run = Ok (text_result (h msg)))
  /\ (forall msg, fst run <> Raise (HTTPError msg))
  /\ (forall l, fst run = Ok l -> exists t, l = text_result t).
Proof.
  intros Hfs Hrt run. split; [|split].
  - destruct (try_http_converts body (fun e => text_result (h e)) w [] Hfs)
      as [new [E F]].
    fold run in E, F. rewrite E. exact F.
  - apply try_http_never_reraises with (h := fun e => text_result (h e)).
  - apply (returns_text_try body h Hrt w []).
Qed.

(** C3, as the code has it.  For every tool of the catalog, every arguments
    value and every behaviour of the Notion API:
    - when a call to the API fails (a transport failure or a non-2xx status)
      with message [msg], the handler catches it and the dispatcher returns
      the tool's textual error, which embeds [msg];
    - the dispatcher never raises an [httpx.HTTPError] to its caller;
    - whatever the dispatcher returns is one textual result.
    Exceptions of other classes are not caught by the handlers. *)
Theorem external_failure_is_caught (n : string) (arguments : json) (w : world) :
  In n known_tools ->
  (forall rq msg,
      In (rq, Failure msg) (snd (invoke key db repr n arguments w)) ->
      fst (invoke key db repr n arguments w) = Ok (text_result (failure_text n msg)))
  /\ (forall msg, fst (invoke key db repr n arguments w) <> Raise (HTTPError msg))
  /\ (forall l, fst (invoke key db repr n arguments w) = Ok l ->
                exists t, l = text_result t).
Proof.
  intros Hn. unfold known_tools in Hn. simpl in Hn. unfold invoke.
  destruct Hn as [<-|[<-|[<-|[<-|[<-|[]]]]]].
  - rewrite call_tool_show_all.
    apply (handler_boundary _ (failure_text "show_all_notion_pages") w);
      unfold http_post; [fail_stop_steps | returns_text_steps].
  - rewrite call_tool_update_status.
    apply (handler_boundary _ (failure_text "notion_update_status") w);
      unfold http_patch; [fail_stop_steps | returns_text_steps].
  - rewrite call_tool_read_page_content.
    apply (handler_boundary _ (failure_text "notion_read_page_content") w);
      unfold get_page_content, http_get; [fail_stop_steps | returns_text_steps].
  - rewrite call_tool_update_page_content.
    apply (handler_boundary _ (failure_text "notion_update_page_content") w);
      unfold http_patch; [fail_stop_steps | returns_text_steps].
  - rewrite call_tool_add_comment.
    apply (handler_boundary _ (failure_text "notion_add_comment") w);
      unfold http_patch; [fail_stop_steps | returns_text_steps].
Qed.

End Dispatch.

Lemma external_failure_is_caught_witness :
  fst (invoke "secret" "db1" (fun _ => "") "notion_add_comment"
         (JDict [("page_id", JStr "p1"); ("comment", JStr "seen")])
         (fun _ _ => Failure "404 Not Found"))
  = Ok (text_result "Error adding comment: 404 Not Found").
Proof.
  apply (proj1 (external_failure_is_caught "secret" "db1" (fun _ => "")
                  "notion_add_comment"
                  (JDict [("page_id", JStr "p1"); ("comment", JStr "seen")])
                  (fun _ _ => Failure "404 Not Found")
                  ltac:(simpl; tauto))
           {| meth := PATCH;
              url := "https://api.notion.com/v1/blocks/p1/children";
              headers := notion_headers "secret";
              payload := Some (JDict [("children",
                           JList [comment_block (JStr "seen") (JStr "💬")])]) |}).
  vm_compute. left. reflexivity.
Defined.

(** C3 as the specification words it fails: for the recognized tool
    [notion_update_page_content] and an arguments mapping whose content entry
    has no ["type"], the dispatcher returns no textual result; the
    [KeyError] of [block["type"]] is raised to the caller, before any
    request. *)
Lemma content_entry_without_type_raises :
  In "notion_update_page_content" known_tools
  /\ invoke "secret" "db1" (fun _ => "") "notion_update_page_content"
       (JDict [("page_id", JStr "p1"); ("content", JList [JDict [("text", JStr "Hi")]])])
       (fun _ _ => Reply None)
     = (Raise (KeyError "type"), []).
Proof.
  split; [simpl; tauto | reflexivity].
Qed.

Lemma missing_required_argument_witness :
  invoke "secret" "db1" (fun _ => "") "notion_update_status"
    (JDict [("target_status", JStr "Done")]) (fun _ _ => Reply None)
  = (Ok (text_result "Error: Both page_id and target_status are required."), []).
Proof.
  apply (missing_required_argument "secret" "db1" (fun _ => "")
           "notion_update_status" [("target_status", JStr "Done")] "page_id").
  - simpl. tauto.
  - simpl. tauto.
  - reflexivity.
Defined.

Lemma unknown_tool_raises_witness :
  invoke "secret" "db1" (fun _ => "") "notion_delete_page"
    (JDict [("page_id", JStr "p1")]) (fun _ _ => Reply None)
  = (Raise (ValueError "Unknown tool: notion_delete_page"), []).
Proof.
  apply (unknown_tool_raises "secret" "db1" (fun _ => "") "notion_delete_page").
  simpl. intros [H|[H|[H|[H|[H|[]]]]]]; discriminate H.
Defined.

Lemma falsy_argument_rejected_witness :
  invoke "secret" "db1" (fun _ => "") "notion_update_page_content"
    (JDict [("page_id", JStr "p1"); ("content", JList [])]) (fun _ _ => Reply None)
  = (Ok (text_result "Error: Both page_id and content are required."), [])
  /\ invoke "secret" "db1" (fun _ => "") "notion_add_comment"
       (JDict [("page_id", JStr ""); ("comment", JStr "seen")]) (fun _ _ => Reply None)
     = (Ok (text_result "Error: Both page_id and comment are required."), []).
Proof.
  split.
  - apply (proj1 (falsy_argument_rejected "secret" "db1" (fun _ => "")
                    [("page_id", JStr "p1"); ("content", JList [])]
                    (fun _ _ => Reply None))).
    reflexivity.
  - apply (proj2 (falsy_argument_rejected "secret" "db1" (fun _ => "")
                    [("page_id", JStr ""); ("comment", JStr "seen")]
                    (fun _ _ => Reply None)) "notion_add_comment").
    + simpl. tauto.
    + reflexivity.
Defined.

(** *** The listing *)

Lemma py_get_dict (d : dict) (k : string) (default : json) :
  py_get (JDict d) k default
  = Ok (match lookup k d with Some v => v | None => default end).
Proof. reflexivity. Qed.

Lemma all_some_map {A} (l : list (option A)) (r : list A) :
  all_some l = Some r -> l = map Some r.
Proof.
  revert r. induction l as [|[a|] l IH]; intros r H; simpl in H.
  - injection H as <-. reflexivity.
  - destruct (all_some l) as [r'|]; [|discriminate].
    injection H as <-. simpl. rewrite (IH r' eq_refl). reflexivity.
  - discriminate.
Qed.

Lemma mapM_names (options : list json) (names : list string) :
  map name_of options = map Some names ->
  mapM (fun item => py_get item "name" (JStr "")) options = Ok (map JStr names).
Proof.
  revert names. induction options as [|o options IH]; intros [|n names] H;
    try discriminate; [reflexivity|].
  simpl in H. injection H as Ho Hrest.
  simpl. rewrite (IH _ Hrest).
  destruct o as [| | | |?|d]; try discriminate.
  simpl in *. destruct (lookup "name" d) as [[| | |s| |]|];
    try discriminate; injection Ho as ->; reflexivity.
Qed.

Lemma title_of_ok (v : json) (frags : list string) :
  title_of v = Some frags ->
  extract_text_from_title v = Ok (JStr (String.concat " " frags)).
Proof.
  destruct v as [| | | |?|d]; try discriminate.
  unfold title_of, extract_text_from_title, py_get, bind.
  destruct (lookup "title" d) as [[| | | |runs|]|] eqn:Ht; try discriminate.
  - intros H. apply all_some_map in H.
    rewrite (truthy_field_dict _ _ _ Ht). simpl negb. cbv iota.
    destruct runs as [|r runs].
    + destruct frags; [reflexivity | discriminate].
    + simpl truthy. cbv iota. apply join_plain_text_runs. exact H.
  - intros H. injection H as <-. destruct (truthy (JDict d)); reflexivity.
Qed.

Lemma clients_of_ok (v : json) (names : list string) :
  clients_of v = Some names ->
  extract_multi_select v = Ok (JList (map JStr names)).
Proof.
  destruct v as [| | | |?|d]; try discriminate.
  unfold clients_of, extract_multi_select.
  destruct (truthy (JDict d)) eqn:Hd; simpl negb; cbv iota.
  - rewrite py_get_dict. cbn [bind]. fold (field d "type").
    destruct (is_str (field d "type") "multi_select"); simpl negb; cbv iota.
    + rewrite py_get_dict. cbn [bind].
      destruct (lookup "multi_select" d) as [[| | | |options|]|];
        try discriminate; intros H.
      * apply all_some_map in H. cbn [py_iter bind].
        rewrite (mapM_names _ _ H). reflexivity.
      * injection H as <-. reflexivity.
    + intros H. injection H as <-. reflexivity.
  - destruct d; [|discriminate]. intros H. injection H as <-. reflexivity.
Qed.

Lemma status_of_ok (v : json) (s : string) :
  status_of v = Some s ->
  extract_select v = Ok (JStr s).
Proof.
  destruct v as [| | | |?|d]; try discriminate.
  unfold status_of, extract_select.
  destruct (truthy (JDict d)) eqn:Hd; simpl negb; cbv iota.
  - rewrite py_get_dict. cbn [bind]. fold (field d "type").
    destruct (is_str (field d "type") "select"); simpl negb; cbv iota.
    + rewrite py_get_dict. cbn [bind].
      destruct (lookup "select" d) as [[| | | | |sel]|];
        try discriminate; intros H.
      * injection H as <-. reflexivity.
      * unfold name_of in H. rewrite py_get_dict.
        destruct (lookup "name" sel) as [[| | |n| |]|] eqn:Hn; try discriminate;
          injection H as <-.
        -- rewrite (truthy_field_dict _ _ _ Hn). reflexivity.
        -- destruct (truthy (JDict sel)); reflexivity.
      * injection H as <-. reflexivity.
    + intros H. injection H as <-. reflexivity.
  - destruct d; [|discriminate]. intros H. injection H as <-. reflexivity.
Qed.

Lemma page_entry_ok (page : json) (v : page_view) :
  page_view_of page = Some v -> page_entry page = Ok (summary v).
Proof.
  destruct page as [| | | |?|p]; try discriminate.
  unfold page_view_of.
  destruct (lookup "id" p) as [[| | |id| |]|] eqn:Hid; try discriminate.
  destruct (lookup "created_time" p) as [[| | |created| |]|] eqn:Hc; try discriminate.
  destruct (lookup "last_edited_time" p) as [[| | |edited| |]|] eqn:He; try discriminate.
  destruct (lookup "properties" p) as [[| | | | |props]|] eqn:Hp; try discriminate.
  destruct (title_of (property props "Title")) as [title|] eqn:Ht; [|discriminate].
  destruct (clients_of (property props "Clients")) as [clients|] eqn:Hcl; [|discriminate].
  destruct (status_of (property props "Status")) as [status|] eqn:Hs; [|discriminate].
  intros H. injection H as <-.
  unfold page_entry.
  repeat (rewrite py_get_dict; cbn [bind]; rewrite ?Hid, ?Hc, ?He, ?Hp).
  fold (property props "Title"). rewrite (title_of_ok _ _ Ht). cbn [bind].
  repeat (rewrite py_get_dict; cbn [bind]; rewrite ?Hid, ?Hc, ?He, ?Hp).
  fold (property props "Clients"). rewrite (clients_of_ok _ _ Hcl). cbn [bind].
  repeat (rewrite py_get_dict; cbn [bind]; rewrite ?Hid, ?Hc, ?He, ?Hp).
  cbn [py_strip_hyphens bind].
  repeat (rewrite py_get_dict; cbn [bind]; rewrite ?Hid, ?Hc, ?He, ?Hp).
  fold (property props "Status"). rewrite (status_of_ok _ _ Hs).
  reflexivity.
Qed.

Lemma mapM_page_entry (pages : list json) (views : list page_view) :
  map page_view_of pages = map Some views ->
  mapM page_entry pages = Ok (map summary views).
Proof.
  revert views. induction pages as [|page pages IH]; intros [|v views] H;
    try discriminate; [reflexivity|].
  simpl in H. injection H as Hpage Hrest.
  simpl. rewrite (page_entry_ok _ _ Hpage), (IH _ Hrest). reflexivity.
Qed.

(** [remove_char c] keeps, in order, exactly the characters other than [c]. *)
Lemma remove_char_filter (c : ascii) (s : string) :
  list_ascii_of_string (remove_char c s)
  = filter (fun a => negb (Ascii.eqb a c)) (list_ascii_of_string s).
Proof.
  induction s as [|a s IH]; [reflexivity|].
  simpl. destruct (Ascii.eqb a c); simpl; rewrite IH; reflexivity.
Qed.

(** C4: the listing tool issues one request, a POST of the query of the
    configured database with page size 500 and a sort on the creation time,
    descending.  When the answer is a JSON object whose ["results"] are page
    objects, the tool returns the indented JSON text of the list that has,
    for every page in order, the object with the keys id, title, clients,
    Created time, Last edited time, url and status: the title joins the plain
    texts of the runs of the ["Title"] property with single spaces, the
    clients are the option names of the ["Clients"] multi-select, the status is
    the selected option of the ["Status"] select, and the url is
    [https://www.notion.so/] followed by the id with every hyphen removed. *)
Theorem show_all_notion_pages_lists (key db : string) (repr : json -> string)
    (arguments : json) (w : world) (body : dict) (pages : list json)
    (views : list page_view) :
  let query :=
    {| meth := POST;
       url := "https://api.notion.com/v1/databases/" ++ db ++ "/query";
       headers := notion_headers key;
       payload := Some (JDict
         [("page_size", JNum 500);
          ("sorts", JList [JDict [("property", JStr "Created time");
                                  ("timestamp", JStr "created_time");
                                  ("direction", JStr "descending")]])]) |} in
  w 0 query = Reply (Some (JDict body)) ->
  lookup "results" body = Some (JList pages) ->
  map page_view_of pages = map Some views ->
  invoke key db repr "show_all_notion_pages" arguments w
  = (Ok (text_result (json_dumps (JList (map summary views)))),
     [(query, Reply (Some (JDict body)))]).
Proof.
  intros query Hw Hres Hviews.
  unfold invoke. rewrite call_tool_show_all.
  unfold show_all_notion_pages, try_http, iobind, http_post, send, lift, ret.
  change (length (@nil exchange)) with 0.
  change (w 0 {| meth := POST;
                 url := NOTION_BASE_URL ++ "/databases/" ++ db ++ "/query";
                 headers := notion_headers key;
                 payload := Some listing_query |}) with (w 0 query).
  rewrite Hw. cbv beta iota zeta. unfold response_json.
  rewrite py_get_dict, Hres. cbn [bind py_iter].
  rewrite (mapM_page_entry _ _ Hviews). reflexivity.
Qed.

Lemma show_all_notion_pages_lists_witness :
  let page (id title : string) :=
    JDict [("object", JStr "page"); ("id", JStr id);
           ("created_time", JStr "2024-12-01T10:00:00.000Z");
           ("last_edited_time", JStr "2024-12-02T08:30:00.000Z");
           ("properties", JDict
              [("Title", JDict [("type", JStr "title");
                                ("title", JList [JDict [("plain_text", JStr title)]])]);
               ("Clients", JDict [("type", JStr "multi_select");
                                  ("multi_select", JList [JDict [("name", JStr "Acme")]])]);
               ("Status", JDict [("type", JStr "select");
                                 ("select", JDict [("name", JStr "Done")])])])] in
  let shown (id bare title : string) :=
    JDict [("id", JStr id); ("title", JStr title);
           ("clients", JList [JStr "Acme"]);
           ("Created time", JStr "2024-12-01T10:00:00.000Z");
           ("Last edited time", JStr "2024-12-02T08:30:00.000Z");
           ("url", JStr ("https://www.notion.so/" ++ bare));
           ("status", JStr "Done")] in
  fst (invoke "secret" "db1" (fun _ => "") "show_all_notion_pages" (JDict [])
         (fun _ _ => Reply (Some (JDict
            [("object", JStr "list");
             ("results", JList [page "1a2b-3c4d" "Roadmap"; page "5e6f-7a8b" "Notes"])]))))
  = Ok (text_result (json_dumps
          (JList [shown "1a2b-3c4d" "1a2b3c4d" "Roadmap";
                  shown "5e6f-7a8b" "5e6f7a8b" "Notes"]))).
Proof.
  intros page shown.
  rewrite (show_all_notion_pages_lists "secret" "db1" (fun _ => "") (JDict [])
             (fun _ _ => Reply (Some (JDict
                [("object", JStr "list");
                 ("results", JList [page "1a2b-3c4d" "Roadmap"; page "5e6f-7a8b" "Notes"])])))
             [("object", JStr "list");
              ("results", JList [page "1a2b-3c4d" "Roadmap"; page "5e6f-7a8b" "Notes"])]
             [page "1a2b-3c4d" "Roadmap"; page "5e6f-7a8b" "Notes"]
             [ {| pv_id := "1a2b-3c4d"; pv_title := ["Roadmap"]; pv_clients := ["Acme"];
                  pv_status := "Done"; pv_created := "2024-12-01T10:00:00.000Z";
                  pv_edited := "2024-12-02T08:30:00.000Z" |};
               {| pv_id := "5e6f-7a8b"; pv_title := ["Notes"]; pv_clients := ["Acme"];
                  pv_status := "Done"; pv_created := "2024-12-01T10:00:00.000Z";
                  pv_edited := "2024-12-02T08:30:00.000Z" |} ]);
    reflexivity.
Defined.

(** ** Further properties of the codecs *)

(** X1. [extract_multi_select]: the option names in order when the tag is
    multi_select, an option without a name counting as the empty string; the
    empty list when the tag is another one or the option list is absent. *)
Theorem extract_multi_select_cases (d : dict) :
  (forall (options : list json) (names : list string),
      lookup "type" d = Some (JStr "multi_select") ->
      lookup "multi_select" d = Some (JList options) ->
      map name_of options = map Some names ->
      extract_multi_select (JDict d) = Ok (JList (map JStr names)))
  /\ (lookup "type" d <> Some (JStr "multi_select") ->
      extract_multi_select (JDict d) = Ok (JList []))
  /\ (lookup "multi_select" d = None ->
      extract_multi_select (JDict d) = Ok (JList [])).
Proof.
  split; [|split].
  - intros options names Hty Hopt Hnames. apply clients_of_ok.
    unfold clients_of, field. rewrite Hty, Hopt. simpl is_str. cbv iota.
    clear Hty Hopt. revert names Hnames.
    induction options as [|o options IH]; intros [|n names] H; try discriminate;
      [reflexivity|].
    simpl in H. injection H as Ho Hrest. simpl. rewrite Ho, (IH _ Hrest). reflexivity.
  - intros Hty. unfold extract_multi_select.
    destruct (truthy (JDict d)); [|reflexivity]. simpl negb. cbv iota.
    rewrite py_get_dict. cbn [bind]. fold (field d "type").
    rewrite (is_str_field_other _ _ _ Hty). reflexivity.
  - intros Hnone. unfold extract_multi_select.
    destruct (truthy (JDict d)); [|reflexivity]. simpl negb. cbv iota.
    rewrite py_get_dict. cbn [bind].
    destruct (is_str _ "multi_select"); [|reflexivity]. simpl negb. cbv iota.
    rewrite py_get_dict, Hnone. reflexivity.
Qed.

Lemma extract_multi_select_cases_witness :
  extract_multi_select
    (JDict [("id", JStr "c"); ("type", JStr "multi_select");
            ("multi_select", JList [JDict [("name", JStr "A")];
                                    JDict [("color", JStr "red")];
                                    JDict [("name", JStr "B")]])])
  = Ok (JList [JStr "A"; JStr ""; JStr "B"])
  /\ extract_multi_select (JDict [("type", JStr "select"); ("select", JNull)])
     = Ok (JList [])
  /\ extract_multi_select (JDict [("type", JStr "multi_select")]) = Ok (JList []).
Proof.
  split; [|split].
  - apply (proj1 (extract_multi_select_cases _)
             [JDict [("name", JStr "A")]; JDict [("color", JStr "red")];
              JDict [("name", JStr "B")]] ["A"; ""; "B"]); reflexivity.
  - apply (proj1 (proj2 (extract_multi_select_cases _))). discriminate.
  - apply (proj2 (proj2 (extract_multi_select_cases _))). reflexivity.
Defined.

(** X2. [extract_text_from_title] reads the ["title"] run list whatever the type
    tag is: the plain texts of the runs joined with single spaces, a run
    without plain text counting as the empty string; the empty string when
    the run list is absent, and for a null property. *)
Theorem extract_text_from_title_cases (d : dict) :
  (forall (runs : list json) (frags : list string),
      lookup "title" d = Some (JList runs) ->
      map plain_text_of runs = map Some frags ->
      extract_text_from_title (JDict d) = Ok (JStr (String.concat " " frags)))
  /\ (lookup "title" d = None -> extract_text_from_title (JDict d) = Ok (JStr ""))
  /\ extract_text_from_title JNull = Ok (JStr "").
Proof.
  split; [|split; [|reflexivity]].
  - intros runs frags Ht Hfrags. apply title_of_ok.
    unfold title_of. rewrite Ht. clear Ht.
    revert frags Hfrags.
    induction runs as [|r runs IH]; intros [|f frags] H; try discriminate;
      [reflexivity|].
    simpl in H. injection H as Hr Hrest. simpl. rewrite Hr, (IH _ Hrest). reflexivity.
  - intros Ht. apply (title_of_ok (JDict d) []). unfold title_of. rewrite Ht.
    reflexivity.
Qed.

Lemma extract_text_from_title_cases_witness :
  extract_text_from_title
    (JDict [("type", JStr "rich_text");
            ("title", JList [JDict [("plain_text", JStr "Q3")];
                             JDict [("href", JNull)];
                             JDict [("plain_text", JStr "plan")]])])
  = Ok (JStr "Q3  plan")
  /\ extract_text_from_title (JDict [("type", JStr "title")]) = Ok (JStr "").
Proof.
  split.
  - apply (proj1 (extract_text_from_title_cases _)
             [JDict [("plain_text", JStr "Q3")]; JDict [("href", JNull)];
              JDict [("plain_text", JStr "plan")]] ["Q3"; ""; "plan"]); reflexivity.
  - apply (proj1 (proj2 (extract_text_from_title_cases _))). reflexivity.
Defined.

Lemma format_property_value_typed (d : dict) (t : string) :
  lookup "type" d = Some (JStr t) ->
  format_property_value (JDict d)
  = (if is_str (JStr t) "title" then extract_text_from_title (JDict d)
     else if is_str (JStr t) "rich_text" then
       bind (py_get (JDict d) "rich_text" (JList [])) join_plain_text
     else if is_str (JStr t) "select" then
       bind (py_get (JDict d) "select" JNull)
         (fun select_data =>
            if truthy select_data then py_get select_data "name" JNull else Ok JNull)
     else if is_str (JStr t) "multi_select" then
       bind (py_get (JDict d) "multi_select" (JList []))
         (fun options =>
            bind (py_iter options)
              (fun items =>
                 bind (mapM (fun item => py_get item "name" JNull) items)
                   (fun names => Ok (JList names))))
     else if is_str (JStr t) "date" then
       bind (py_get (JDict d) "date" (JDict []))
         (fun date_data =>
            if truthy date_data then
              bind (py_get date_data "start" JNull)
                (fun start =>
                   bind (py_get date_data "end" JNull)
                     (fun end_ => Ok (JDict (dict_of [("start", start); ("end", end_)]))))
            else Ok JNull)
     else py_get_key (JDict d) (JStr t) JNull).
Proof.
  intros Hty. unfold format_property_value.
  rewrite (truthy_field_dict _ _ _ Hty). simpl negb. cbv iota.
  rewrite py_get_dict, Hty. reflexivity.
Qed.

(** X3. [format_property_value] on a select property: the value under the
    selection's ["name"] (null when the selection has none), and null, not
    the empty string of [extract_select], when nothing is selected. *)
Theorem format_property_value_select (d : dict) :
  lookup "type" d = Some (JStr "select") ->
  (forall sel : dict,
      lookup "select" d = Some (JDict sel) ->
      format_property_value (JDict d) = Ok (field sel "name"))
  /\ (lookup "select" d = None \/ lookup "select" d = Some JNull ->
      format_property_value (JDict d) = Ok JNull
      /\ extract_select (JDict d) = Ok (JStr "")).
Proof.
  intros Hty. rewrite (format_property_value_typed _ _ Hty).
  simpl is_str. cbv iota. rewrite py_get_dict. cbn [bind]. split.
  - intros sel Hsel. rewrite Hsel. destruct sel; reflexivity.
  - intros H. split.
    + destruct H as [-> | ->]; reflexivity.
    + apply (status_of_ok (JDict d) ""). unfold status_of, field. rewrite Hty.
      simpl is_str. cbv iota. destruct H as [-> | ->]; reflexivity.
Qed.

Lemma format_property_value_select_witness :
  format_property_value
    (JDict [("type", JStr "select");
            ("select", JDict [("id", JStr "o1"); ("name", JStr "Done")])])
  = Ok (JStr "Done")
  /\ format_property_value (JDict [("type", JStr "select"); ("select", JNull)])
     = Ok JNull.
Proof.
  split.
  - apply (proj1 (format_property_value_select
                    [("type", JStr "select");
                     ("select", JDict [("id", JStr "o1"); ("name", JStr "Done")])]
                    eq_refl)
             [("id", JStr "o1"); ("name", JStr "Done")]).
    reflexivity.
  - apply (proj2 (format_property_value_select
                    [("type", JStr "select"); ("select", JNull)] eq_refl)).
    right. reflexivity.
Defined.

(** X4. [format_property_value] on a date property: the pair of the values under
    ["start"] and ["end"], each null when absent; null when the date itself is
    absent or null. *)
Theorem format_property_value_date (d : dict) :
  lookup "type" d = Some (JStr "date") ->
  (forall dd : dict,
      lookup "date" d = Some (JDict dd) -> dd <> [] ->
      format_property_value (JDict d)
      = Ok (JDict [("start", field dd "start"); ("end", field dd "end")]))
  /\ (lookup "date" d = None \/ lookup "date" d = Some JNull ->
      format_property_value (JDict d) = Ok JNull).
Proof.
  intros Hty. rewrite (format_property_value_typed _ _ Hty).
  simpl is_str. cbv iota. rewrite py_get_dict. cbn [bind]. split.
  - intros dd Hdate Hne. rewrite Hdate.
    destruct dd; [contradiction|]. reflexivity.
  - intros [-> | ->]; reflexivity.
Qed.

Lemma format_property_value_date_witness :
  format_property_value
    (JDict [("type", JStr "date");
            ("date", JDict [("start", JStr "2024-12-01"); ("time_zone", JNull)])])
  = Ok (JDict [("start", JStr "2024-12-01"); ("end", JNull)])
  /\ format_property_value (JDict [("type", JStr "date"); ("date", JNull)]) = Ok JNull.
Proof.
  split.
  - apply (proj1 (format_property_value_date
                    [("type", JStr "date");
                     ("date", JDict [("start", JStr "2024-12-01"); ("time_zone", JNull)])]
                    eq_refl)
             [("start", JStr "2024-12-01"); ("time_zone", JNull)]);
      [reflexivity | discriminate].
  - apply (proj2 (format_property_value_date
                    [("type", JStr "date"); ("date", JNull)] eq_refl)).
    right. reflexivity.
Defined.

Lemma mapM_listed_names (options names : list json) :
  map listed_name options = map Some names ->
  mapM (fun item => py_get item "name" JNull) options = Ok names.
Proof.
  revert names. induction options as [|o options IH]; intros [|n names] H;
    try discriminate; [reflexivity|].
  simpl in H. injection H as Ho Hrest.
  simpl. rewrite (IH _ Hrest).
  destruct o as [| | | |?|o]; try discriminate.
  simpl in Ho. injection Ho as <-. reflexivity.
Qed.

(** X5. [format_property_value] on a multi-select property: the values under the
    ["name"] of the options, in order, null for an option without a name
    (where [extract_multi_select] puts the empty string); the empty list when
    the option list is absent. *)
Theorem format_property_value_multi_select (d : dict) :
  lookup "type" d = Some (JStr "multi_select") ->
  (forall options names : list json,
      lookup "multi_select" d = Some (JList options) ->
      map listed_name options = map Some names ->
      format_property_value (JDict d) = Ok (JList names))
  /\ (lookup "multi_select" d = None ->
      format_property_value (JDict d) = Ok (JList [])).
Proof.
  intros Hty. rewrite (format_property_value_typed _ _ Hty).
  simpl is_str. cbv iota. rewrite py_get_dict. cbn [bind]. split.
  - intros options names Hopt Hnames. rewrite Hopt. cbn [py_iter bind].
    rewrite (mapM_listed_names _ _ Hnames). reflexivity.
  - intros ->. reflexivity.
Qed.

Lemma format_property_value_multi_select_witness :
  format_property_value
    (JDict [("type", JStr "multi_select");
            ("multi_select", JList [JDict [("name", JStr "A")];
                                    JDict [("color", JStr "red")]])])
  = Ok (JList [JStr "A"; JNull]).
Proof.
  apply (proj1 (format_property_value_multi_select
                  [("type", JStr "multi_select");
                   ("multi_select", JList [JDict [("name", JStr "A")];
                                           JDict [("color", JStr "red")]])]
                  eq_refl)
           [JDict [("name", JStr "A")]; JDict [("color", JStr "red")]]);
    reflexivity.
Defined.

(** X6. [format_property_value] on a title or rich-text property: the plain
    texts of the runs kept under the tag, joined with single spaces; the empty
    string when the run list is absent. *)
Theorem format_property_value_text (d : dict) (t : string) :
  t = "title" \/ t = "rich_text" ->
  lookup "type" d = Some (JStr t) ->
  (forall (runs : list json) (frags : list string),
      lookup t d = Some (JList runs) ->
      map plain_text_of runs = map Some frags ->
      format_property_value (JDict d) = Ok (JStr (String.concat " " frags)))
  /\ (lookup t d = None -> format_property_value (JDict d) = Ok (JStr "")).
Proof.
  intros Ht Hty. rewrite (format_property_value_typed _ _ Hty).
  destruct Ht as [-> | ->]; simpl is_str; cbv iota.
  - split.
    + intros runs frags Hruns Hfrags. apply title_of_ok.
      unfold title_of. rewrite Hruns. clear Hruns. revert frags Hfrags.
      induction runs as [|r runs IH]; intros [|f frags] H; try discriminate;
        [reflexivity|].
      simpl in H. injection H as Hr Hrest. simpl. rewrite Hr, (IH _ Hrest).
      reflexivity.
    + intros Hnone. apply (title_of_ok (JDict d) []). unfold title_of.
      rewrite Hnone. reflexivity.
  - rewrite py_get_dict. cbn [bind]. split.
    + intros runs frags Hruns Hfrags. rewrite Hruns.
      apply join_plain_text_runs. exact Hfrags.
    + intros ->. reflexivity.
Qed.

Lemma format_property_value_text_witness :
  format_property_value
    (JDict [("type", JStr "rich_text");
            ("rich_text", JList [JDict [("plain_text", JStr "see")];
                                 JDict [("plain_text", JStr "notes")]])])
  = Ok (JStr "see notes")
  /\ format_property_value (JDict [("type", JStr "title")]) = Ok (JStr "").
Proof.
  split.
  - apply (proj1 (format_property_value_text
                    [("type", JStr "rich_text");
                     ("rich_text", JList [JDict [("plain_text", JStr "see")];
                                          JDict [("plain_text", JStr "notes")]])]
                    "rich_text" (or_intror eq_refl) eq_refl)
             [JDict [("plain_text", JStr "see")]; JDict [("plain_text", JStr "notes")]]
             ["see"; "notes"]); reflexivity.
  - apply (proj2 (format_property_value_text [("type", JStr "title")] "title"
                    (or_introl eq_refl) eq_refl)).
    reflexivity.
Defined.

Lemma dict_of_distinct3 (k1 k2 k3 : string) (v1 v2 v3 : json) :
  k1 <> k2 -> k1 <> k3 -> k2 <> k3 ->
  dict_of [(k1, v1); (k2, v2); (k3, v3)] = [(k1, v1); (k2, v2); (k3, v3)].
Proof.
  intros H12 H13 H23. unfold dict_of. cbn [fold_left dict_set fst snd].
  rewrite (proj2 (String.eqb_neq _ _) H12). cbn [dict_set].
  rewrite (proj2 (String.eqb_neq _ _) H13), (proj2 (String.eqb_neq _ _) H23).
  reflexivity.
Qed.

Lemma create_block_content_plain (t : string) (x : json) :
  t <> "type" -> t <> "object" ->
  create_block_content (JStr t) x = Ok (written_block (t, x)).
Proof.
  intros Ht Ho. unfold create_block_content, written_block, text_run.
  cbn [py_key bind].
  rewrite dict_of_distinct3 by (congruence || discriminate).
  reflexivity.
Qed.

(** X7. [create_block_content] for a type other than ["type"] and ["object"]:
    the block carries the type under ["type"], ["block"] under ["object"],
    and under the type itself one rich-text run of kind text whose content is
    the text.  For the type ["type"] (and likewise ["object"]) the payload
    takes the place of that entry, so the block no longer says what it is. *)
Theorem create_block_content_shape (x : json) :
  (forall t : string,
      t <> "type" -> t <> "object" ->
      create_block_content (JStr t) x = Ok (written_block (t, x)))
  /\ create_block_content (JStr "type") x
     = Ok (JDict [("type", JDict [("rich_text", JList [text_run x])]);
                  ("object", JStr "block")])
  /\ create_block_content (JStr "object") x
     = Ok (JDict [("type", JStr "object");
                  ("object", JDict [("rich_text", JList [text_run x])])]).
Proof.
  split; [|split; reflexivity].
  intros t Ht Ho. apply create_block_content_plain; assumption.
Qed.

Lemma create_block_content_shape_witness :
  create_block_content (JStr "heading_1") (JStr "Plan")
  = Ok (JDict [("type", JStr "heading_1");
               ("object", JStr "block");
               ("heading_1", JDict [("rich_text", JList
                  [JDict [("type", JStr "text");
                          ("text", JDict [("content", JStr "Plan")])]])])]).
Proof.
  apply (proj1 (create_block_content_shape (JStr "Plan")) "heading_1"); discriminate.
Defined.

(** ** Further properties of the handlers *)

Lemma mapM_cons {A B} (f : A -> result B) (x : A) (xs : list A) :
  mapM f (x :: xs)
  = bind (f x) (fun y => bind (mapM f xs) (fun ys => Ok (y :: ys))).
Proof. reflexivity. Qed.


Lemma mapM_entries_malformed (items : list json) :
  existsb (fun entry => negb (has_type_and_text entry)) items = true ->
  exists e,
    mapM (fun block =>
            bind (py_index block "type")
              (fun block_type =>
                 bind (py_index block "text")
                   (fun block_text => create_block_content block_type block_text)))
      items
    = Raise e
    /\ (e = KeyError "type" \/ e = KeyError "text" \/ e = TypeError).
Proof.
  induction items as [|item items IH]; intros H; [discriminate|].
  rewrite mapM_cons.
  destruct item as [| | | |?|d];
    try (exists TypeError; split; [reflexivity | tauto]).
  unfold py_index at 1.
  destruct (lookup "type" d) as [ty|] eqn:Hty;
    [|exists (KeyError "type"); split; [reflexivity | tauto]].
  cbn [bind]. unfold py_index at 1.
  destruct (lookup "text" d) as [x|] eqn:Htx;
    [|exists (KeyError "text"); split; [reflexivity | tauto]].
  cbn [bind]. unfold create_block_content at 1.
  destruct ty; cbn [py_key bind];
    try (exists TypeError; split; [reflexivity | tauto]);
    try destruct b;
    (cbn [existsb] in H; unfold has_type_and_text in H at 1;
     rewrite Hty, Htx in H; cbn [negb orb] in H;
     destruct (IH H) as [e [Hm He]]; exists e; split;
     [rewrite Hm; reflexivity | exact He]).
Qed.

Section Handlers.

Variables (key db : string) (repr : json -> string).




(** X11. The update tool builds every block before it sends anything: when some
    entry of the content, wherever it stands, is not an object with both a
    ["type"] and a ["text"], the tool raises ([KeyError] or [TypeError], which
    no handler catches) and no request has been issued; no entry is
    appended. *)
Theorem update_page_content_all_or_nothing (args : dict) (items : list json)
    (w : world) :
  truthy (field args "page_id") = true ->
  lookup "content" args = Some (JList items) ->
  existsb (fun entry => negb (has_type_and_text entry)) items = true ->
  exists e,
    invoke key db repr "notion_update_page_content" (JDict args) w = (Raise e, [])
    /\ (e = KeyError "type" \/ e = KeyError "text" \/ e = TypeError).
Proof.
  intros Hp Hc Hbad.
  destruct (mapM_entries_malformed items Hbad) as [e [Hm He]].
  exists e. split; [|exact He].
  unfold invoke. rewrite call_tool_update_page_content.
  unfold notion_update_page_content, try_http, iobind, lift, py_get.
  fold (field args "page_id"). rewrite Hp, Hc.
  assert (Ht : truthy (JList items) = true) by (destruct items; [discriminate | reflexivity]).
  rewrite Ht. change (negb true || negb true) with false. cbv beta iota zeta.
  cbn [py_iter bind]. rewrite Hm.
  destruct He as [-> | [-> | ->]]; reflexivity.
Qed.

End Handlers.

Lemma mapM_named (f : json -> result json) (l : dict) (values : list json) :
  mapM (fun kv => f (snd kv)) l = Ok values ->
  mapM (fun kv => bind (f (snd kv)) (fun v => Ok (fst kv, v))) l
  = Ok (combine (map fst l) values).
Proof.
  revert values. induction l as [|[k v] l IH]; intros values H.
  - injection H as <-. reflexivity.
  - rewrite mapM_cons in H. rewrite mapM_cons. cbn [fst snd] in *.
    destruct (f v) as [v'|e]; [|discriminate]. cbn [bind] in *.
    destruct (mapM (fun kv => f (snd kv)) l) as [vs|e]; [|discriminate].
    cbn [bind] in H. injection H as <-.
    rewrite (IH vs eq_refl). reflexivity.
Qed.

Section Reading.

Variables (key db : string) (repr : json -> string).



(** X14. The listing on an answer object without ["results"]: the text is the
    empty JSON list. *)
Theorem listing_without_results (arguments : json) (w : world) (body : dict) :
  let query :=
    {| meth := POST;
       url := "https://api.notion.com/v1/databases/" ++ db ++ "/query";
       headers := notion_headers key;
       payload := Some listing_query |} in
  w 0 query = Reply (Some (JDict body)) ->
  lookup "results" body = None ->
  invoke key db repr "show_all_notion_pages" arguments w
  = (Ok (text_result "[]"), [(query, Reply (Some (JDict body)))]).
Proof.
  intros query Hw Hres.
  unfold invoke. rewrite call_tool_show_all.
  unfold show_all_notion_pages, try_http, iobind, http_post, send, lift, ret.
  change (length (@nil exchange)) with 0.
  change (w 0 {| meth := POST;
                 url := NOTION_BASE_URL ++ "/databases/" ++ db ++ "/query";
                 headers := notion_headers key;
                 payload := Some listing_query |}) with (w 0 query).
  rewrite Hw. cbv beta iota zeta. unfold response_json.
  rewrite py_get_dict, Hres. reflexivity.
Qed.

End Reading.

(** *** What every invocation keeps to *)

Lemma at_most_ret {A} (k : nat) (a : A) : at_most k (ret a).
Proof.
  intros w tr. exists []. split; [simpl; rewrite app_nil_r; reflexivity | simpl; lia].
Qed.

Lemma at_most_lift {A} (k : nat) (r : result A) : at_most k (lift r).
Proof.
  intros w tr. exists []. split; [simpl; rewrite app_nil_r; reflexivity | simpl; lia].
Qed.

Lemma at_most_bind {A B} (k1 k2 : nat) (m : io A) (f : A -> io B) :
  at_most k1 m -> (forall a, at_most k2 (f a)) -> at_most (k1 + k2) (iobind m f).
Proof.
  intros Hm Hf w tr. destruct (Hm w tr) as [new1 [E1 L1]].
  unfold iobind. destruct (m w tr) as [[a|e] tr']; simpl in E1; subst tr'.
  - destruct (Hf a w (tr ++ new1)%list) as [new2 [E2 L2]].
    exists (new1 ++ new2)%list. split; [rewrite E2; symmetry; apply app_assoc|].
    rewrite length_app. lia.
  - exists new1. split; [reflexivity | lia].
Qed.

Lemma at_most_lift_bind {A B} (k : nat) (r : result A) (f : A -> io B) :
  (forall a, at_most k (f a)) -> at_most k (iobind (lift r) f).
Proof.
  intros Hf. apply (at_most_bind 0 k); [apply at_most_lift | exact Hf].
Qed.

Lemma at_most_send_bind {B} (k : nat) (rq : request) (f : option json -> io B) :
  (forall a, at_most k (f a)) -> at_most (S k) (iobind (send rq) f).
Proof.
  intros Hf. apply (at_most_bind 1 k); [|exact Hf].
  intros w tr. exists [(rq, w (length tr) rq)]. split; [reflexivity | simpl; lia].
Qed.

Lemma at_most_if {A} (k : nat) (c : bool) (m1 m2 : io A) :
  at_most k m1 -> at_most k m2 -> at_most k (if c then m1 else m2).
Proof.
  destruct c; auto.
Qed.

Lemma at_most_try {A} (k : nat) (body : io A) (h : string -> A) :
  at_most k body -> at_most k (try_http body (fun e => ret (h e))).
Proof.
  intros Hb w tr. destruct (Hb w tr) as [new [E L]]. exists new.
  unfold try_http. destruct (body w tr) as [[a|e] tr']; [auto|].
  destruct e; auto.
Qed.







Lemma halts_ret {A} (a : A) : halts_on_failure (ret a).
Proof.
  intros w tr. exists []. split; [simpl; rewrite app_nil_r; reflexivity | left; reflexivity].
Qed.

Lemma halts_lift {A} (r : result A) : halts_on_failure (lift r).
Proof.
  intros w tr. exists []. split; [simpl; rewrite app_nil_r; reflexivity | left; reflexivity].
Qed.

Lemma halts_send (rq : request) : halts_on_failure (send rq).
Proof.
  intros w tr. exists [(rq, w (length tr) rq)]. split; [reflexivity|].
  unfold send. simpl. destruct (w (length tr) rq) as [msg|content] eqn:E.
  - right. exists [], rq, msg. repeat split.
  - left. unfold is_reply. simpl. reflexivity.
Qed.

Lemma halts_bind {A B} (m : io A) (f : A -> io B) :
  halts_on_failure m -> (forall a, halts_on_failure (f a)) ->
  halts_on_failure (iobind m f).
Proof.
  intros Hm Hf w tr. destruct (Hm w tr) as [new1 [E1 S1]].
  unfold iobind. destruct (m w tr) as [[a|e] tr'] eqn:Em; simpl in E1, S1; subst tr'.
  - destruct S1 as [C1 | [pre [rq [msg [_ [_ Habs]]]]]]; [|discriminate Habs].
    destruct (Hf a w (tr ++ new1)%list) as [new2 [E2 S2]].
    exists (new1 ++ new2)%list. split; [rewrite E2; symmetry; apply app_assoc|].
    destruct S2 as [C2 | [pre [rq [msg [-> [Cpre Hr]]]]]].
    + left. rewrite forallb_app, C1, C2. reflexivity.
    + right. exists (new1 ++ pre)%list, rq, msg. split; [apply app_assoc|].
      split; [rewrite forallb_app, C1, Cpre; reflexivity | exact Hr].
  - exists new1. split; [reflexivity|].
    destruct S1 as [C1 | [pre [rq [msg [-> [Cpre Hr]]]]]]; [left; exact C1|].
    right. exists pre, rq, msg. split; [reflexivity|]. split; [exact Cpre|].
    simpl. injection Hr as ->. reflexivity.
Qed.

Lemma halts_if {A} (c : bool) (m1 m2 : io A) :
  halts_on_failure m1 -> halts_on_failure m2 -> halts_on_failure (if c then m1 else m2).
Proof.
  destruct c; auto.
Qed.

Lemma halts_try {A} (body : io A) (h : string -> A) (w : world) :
  halts_on_failure body ->
  failure_only_last (snd (try_http body (fun e => ret (h e)) w [])).
Proof.
  intros Hb. destruct (Hb w []) as [new [E S]]. unfold try_http.
  assert (Hshape : failure_only_last new).
  { destruct S as [C | [pre [rq [msg [-> [Cpre _]]]]]]; [left; exact C|].
    right. exists pre, rq, msg. split; [reflexivity | exact Cpre]. }
  destruct (body w []) as [[a|e] tr']; simpl in E; subst tr'; [exact Hshape|].
  destruct e; exact Hshape.
Qed.

Section Invocation.

Variables (key db : string) (repr : json -> string).

Ltac at_most_steps :=
  repeat first
    [ apply at_most_ret
    | apply at_most_lift
    | apply at_most_if
    | apply at_most_lift_bind; intro
    | apply at_most_send_bind; intro
    | apply (at_most_bind 2 0); [|intro] ].



Ltac halts_steps :=
  repeat first
    [ apply halts_ret
    | apply halts_lift
    | apply halts_send
    | apply halts_if
    | apply halts_bind; [|intro] ].

(** The dispatcher on a name, as one of its five handlers or the final
    raise. *)
Lemma call_tool_cases (n : string) (arguments : json) :
  call_tool key db repr n arguments = show_all_notion_pages key db
  \/ call_tool key db repr n arguments = notion_update_status key repr arguments
  \/ (n = "notion_read_page_content"
      /\ call_tool key db repr n arguments = notion_read_page_content key repr arguments)
  \/ call_tool key db repr n arguments = notion_update_page_content key repr arguments
  \/ call_tool key db repr n arguments = notion_add_comment key repr arguments
  \/ call_tool key db repr n arguments = lift (Raise (ValueError ("Unknown tool: " ++ n))).
Proof.
  unfold call_tool.
  destruct (String.eqb_spec n "show_all_notion_pages"); [tauto|].
  destruct (String.eqb_spec n "notion_update_status"); [tauto|].
  destruct (String.eqb_spec n "notion_read_page_content"); [tauto|].
  destruct (String.eqb_spec n "notion_update_page_content"); [tauto|].
  destruct (String.eqb_spec n "notion_add_comment"); tauto.
Qed.

(** X15. No invocation issues more than two requests, and only the read tool
    issues more than one: nothing is retried and nothing is paged. *)
Theorem requests_are_bounded (n : string) (arguments : json) (w : world) :
  length (snd (invoke key db repr n arguments w)) <= 2
  /\ (n <> "notion_read_page_content" ->
      length (snd (invoke key db repr n arguments w)) <= 1).
Proof.
  assert (bound : forall k (m : io (list TextContent)),
             at_most k m -> length (snd (m w [])) <= k).
  { intros k m H. destruct (H w []) as [new [-> L]]. exact L. }
  unfold invoke.
  destruct (call_tool_cases n arguments) as [E|[E|[[Hn E]|[E|[E|E]]]]]; rewrite E.
  - assert (H : at_most 1 (show_all_notion_pages key db))
      by (apply at_most_try; unfold http_post; at_most_steps).
    split; [apply Nat.le_trans with 1; [apply (bound _ _ H) | lia]
           | intros _; apply (bound _ _ H)].
  - assert (H : at_most 1 (notion_update_status key repr arguments))
      by (apply at_most_try; unfold http_patch; at_most_steps).
    split; [apply Nat.le_trans with 1; [apply (bound _ _ H) | lia]
           | intros _; apply (bound _ _ H)].
  - assert (H : at_most 2 (notion_read_page_content key repr arguments))
      by (apply at_most_try; unfold get_page_content, http_get; at_most_steps).
    split; [apply (bound _ _ H) | intros Hne; contradiction].
  - assert (H : at_most 1 (notion_update_page_content key repr arguments))
      by (apply at_most_try; unfold http_patch; at_most_steps).
    split; [apply Nat.le_trans with 1; [apply (bound _ _ H) | lia]
           | intros _; apply (bound _ _ H)].
  - assert (H : at_most 1 (notion_add_comment key repr arguments))
      by (apply at_most_try; unfold http_patch; at_most_steps).
    split; [apply Nat.le_trans with 1; [apply (bound _ _ H) | lia]
           | intros _; apply (bound _ _ H)].
  - simpl. split; [lia | intros _; lia].
Qed.


(** X17. In every invocation only the last request can be a failed one: after a
    failure the handlers send nothing more. *)
Theorem nothing_sent_after_failure (n : string) (arguments : json) (w : world) :
  failure_only_last (snd (invoke key db repr n arguments w)).
Proof.
  unfold invoke.
  destruct (call_tool_cases n arguments) as [E|[E|[[_ E]|[E|[E|E]]]]]; rewrite E;
    try (apply halts_try;
         unfold get_page_content, http_get, http_post, http_patch;
         halts_steps).
  left. reflexivity.
Qed.


(** X19. The four tools that take arguments read them with [.get]: an arguments
    value that is not a mapping (null when the caller sends none, a list, a
    string) makes them raise [AttributeError], which no handler catches, before
    any request. *)
Theorem arguments_must_be_mapping (n : string) (arguments : json) (w : world) :
  In n known_tools ->
  n <> "show_all_notion_pages" ->
  (forall d, arguments <> JDict d) ->
  invoke key db repr n arguments w = (Raise AttributeError, []).
Proof.
  intros Hn Hne Hargs. unfold known_tools in Hn. simpl in Hn. unfold invoke.
  destruct Hn as [<-|[<-|[<-|[<-|[<-|[]]]]]]; [contradiction| | | |];
    destruct arguments as [| | | | |d]; try reflexivity;
    exfalso; apply (Hargs d); reflexivity.
Qed.

End Invocation.




Lemma update_page_content_all_or_nothing_witness :
  exists e,
    invoke "secret" "db1" (fun _ => "") "notion_update_page_content"
      (JDict [("page_id", JStr "p1");
              ("content", JList [JDict [("type", JStr "paragraph"); ("text", JStr "Go")];
                                 JDict [("type", JStr "paragraph")]])])
      (fun _ _ => Reply None)
    = (Raise e, [])
    /\ (e = KeyError "type" \/ e = KeyError "text" \/ e = TypeError).
Proof.
  apply (update_page_content_all_or_nothing "secret" "db1" (fun _ => "")
           [("page_id", JStr "p1");
            ("content", JList [JDict [("type", JStr "paragraph"); ("text", JStr "Go")];
                               JDict [("type", JStr "paragraph")]])]
           [JDict [("type", JStr "paragraph"); ("text", JStr "Go")];
            JDict [("type", JStr "paragraph")]]);
    reflexivity.
Defined.



Lemma listing_without_results_witness :
  fst (invoke "secret" "db1" (fun _ => "") "show_all_notion_pages" JNull
         (fun _ _ => Reply (Some (JDict [("object", JStr "error")]))))
  = Ok (text_result "[]").
Proof.
  rewrite (listing_without_results "secret" "db1" (fun _ => "") JNull
             (fun _ _ => Reply (Some (JDict [("object", JStr "error")])))
             [("object", JStr "error")] eq_refl eq_refl).
  reflexivity.
Defined.

Lemma requests_are_bounded_witness :
  length (snd (invoke "secret" "db1" (fun _ => "") "notion_add_comment"
                 (JDict [("page_id", JStr "p1"); ("comment", JStr "seen")])
                 (fun _ _ => Failure "timeout")))
  <= 1.
Proof.
  apply (proj2 (requests_are_bounded "secret" "db1" (fun _ => "") "notion_add_comment"
                  (JDict [("page_id", JStr "p1"); ("comment", JStr "seen")])
                  (fun _ _ => Failure "timeout"))).
  discriminate.
Defined.


Lemma arguments_must_be_mapping_witness :
  invoke "secret" "db1" (fun _ => "") "notion_read_page_content" JNull
    (fun _ _ => Reply None)
  = (Raise AttributeError, []).
Proof.
  apply (arguments_must_be_mapping "secret" "db1" (fun _ => "")
           "notion_read_page_content" JNull).
  - simpl. tauto.
  - discriminate.
  - intros d. discriminate.
Defined.

(** *** Defaults of the listing and of the read tool *)

(** X20. The entry of a page that has no ["properties"]: empty title, no
    clients, empty status; the timestamps are copied as they are (the empty
    string when absent), the url is built from the id.  A page whose id is not
    a string cannot be listed: building the url raises [AttributeError]. *)
Theorem page_entry_without_properties (p : dict) :
  lookup "properties" p = None ->
  (forall id : string,
      lookup "id" p = Some (JStr id) ->
      page_entry (JDict p)
      = Ok (JDict [("id", JStr id);
                   ("title", JStr "");
                   ("clients", JList []);
                   ("Created time",
                    match lookup "created_time" p with Some v => v | None => JStr "" end);
                   ("Last edited time",
                    match lookup "last_edited_time" p with Some v => v | None => JStr "" end);
                   ("url", JStr ("https://www.notion.so/" ++ remove_char "-"%char id));
                   ("status", JStr "")]))
  /\ (forall v : json,
        lookup "id" p = Some v ->
        (forall s, v <> JStr s) ->
        page_entry (JDict p) = Raise AttributeError).
Proof.
  intros Hprops. split.
  - intros id Hid. unfold page_entry.
    repeat (rewrite py_get_dict; cbn [bind lookup]; rewrite ?Hprops, ?Hid).
    change (extract_text_from_title (JDict [])) with (@Ok json (JStr "")). cbn [bind].
    repeat (rewrite py_get_dict; cbn [bind lookup]; rewrite ?Hprops, ?Hid).
    change (extract_multi_select (JDict [])) with (@Ok json (JList [])). cbn [bind].
    repeat (rewrite py_get_dict; cbn [bind lookup]; rewrite ?Hprops, ?Hid).
    cbn [py_strip_hyphens bind].
    repeat (rewrite py_get_dict; cbn [bind lookup]; rewrite ?Hprops, ?Hid).
    reflexivity.
  - intros v Hid Hv. unfold page_entry.
    repeat (rewrite py_get_dict; cbn [bind lookup]; rewrite ?Hprops, ?Hid).
    change (extract_text_from_title (JDict [])) with (@Ok json (JStr "")). cbn [bind].
    repeat (rewrite py_get_dict; cbn [bind lookup]; rewrite ?Hprops, ?Hid).
    change (extract_multi_select (JDict [])) with (@Ok json (JList [])). cbn [bind].
    repeat (rewrite py_get_dict; cbn [bind lookup]; rewrite ?Hprops, ?Hid).
    destruct v as [| | |s| |]; try reflexivity.
    exfalso. apply (Hv s). reflexivity.
Qed.

Lemma page_entry_without_properties_witness :
  page_entry (JDict [("object", JStr "page"); ("id", JStr "1a2b-3c4d");
                     ("created_time", JStr "2024-12-01T10:00:00.000Z")])
  = Ok (JDict [("id", JStr "1a2b-3c4d");
               ("title", JStr "");
               ("clients", JList []);
               ("Created time", JStr "2024-12-01T10:00:00.000Z");
               ("Last edited time", JStr "");
               ("url", JStr "https://www.notion.so/1a2b3c4d");
               ("status", JStr "")])
  /\ page_entry (JDict [("id", JNum 7)]) = Raise AttributeError.
Proof.
  split.
  - apply (proj1 (page_entry_without_properties
                    [("object", JStr "page"); ("id", JStr "1a2b-3c4d");
                     ("created_time", JStr "2024-12-01T10:00:00.000Z")] eq_refl)
             "1a2b-3c4d").
    reflexivity.
  - apply (proj2 (page_entry_without_properties [("id", JNum 7)] eq_refl) (JNum 7)).
    + reflexivity.
    + discriminate.
Defined.

Lemma dict_set_fresh (k : string) (v : json) (d : dict) :
  ~ In k (map fst d) -> dict_set k v d = (d ++ [(k, v)])%list.
Proof.
  induction d as [|[k' v'] d IH]; intros H; [reflexivity|].
  simpl in *. destruct (String.eqb_spec k' k) as [->|_].
  - exfalso. apply H. left. reflexivity.
  - rewrite IH; [reflexivity|]. intros Hin. apply H. right. exact Hin.
Qed.

Lemma fold_dict_set_distinct (l acc : dict) :
  NoDup (map fst (acc ++ l)%list) ->
  fold_left (fun d kv => dict_set (fst kv) (snd kv) d) l acc = (acc ++ l)%list.
Proof.
  revert acc. induction l as [|[k v] l IH]; intros acc H.
  - rewrite app_nil_r. reflexivity.
  - cbn [fold_left fst snd].
    assert (Hfresh : ~ In k (map fst acc)).
    { rewrite map_app in H. apply NoDup_remove_2 in H.
      intros Hin. apply H. apply in_or_app. left. exact Hin. }
    rewrite (dict_set_fresh _ _ _ Hfresh).
    rewrite IH; rewrite <- app_assoc; [reflexivity | exact H].
Qed.

Lemma combine_keys (l : dict) (values : list json) :
  length values = length l -> map fst (combine (map fst l) values) = map fst l.
Proof.
  revert values. induction l as [|[k v] l IH]; intros [|x values] H;
    try discriminate; [reflexivity|].
  simpl. rewrite IH; [reflexivity|]. simpl in H. lia.
Qed.

Lemma mapM_length {A B} (f : A -> result B) (l : list A) (r : list B) :
  mapM f l = Ok r -> length r = length l.
Proof.
  revert r. induction l as [|x l IH]; intros r H.
  - injection H as <-. reflexivity.
  - rewrite mapM_cons in H. destruct (f x); [|discriminate]. cbn [bind] in H.
    destruct (mapM f l) as [r'|]; [|discriminate]. cbn [bind] in H.
    injection H as <-. simpl. rewrite (IH r' eq_refl). reflexivity.
Qed.

(** X21. The properties of a page come out of the read tool under the same names
    and in the same order as they came in, each with its formatted value. *)
Theorem format_properties_keeps_names (props : dict) (values : list json) :
  NoDup (map fst props) ->
  mapM (fun kv => format_property_value (snd kv)) props = Ok values ->
  format_properties (JDict props) = Ok (JDict (combine (map fst props) values))
  /\ map fst (combine (map fst props) values) = map fst props.
Proof.
  intros Hnd Hvalues.
  assert (Hlen := mapM_length _ _ _ Hvalues).
  assert (Hkeys := combine_keys props values Hlen).
  split; [|exact Hkeys].
  unfold format_properties. cbn [py_items bind].
  rewrite (mapM_named _ _ _ Hvalues). cbn [bind].
  unfold dict_of. rewrite fold_dict_set_distinct; [reflexivity|].
  simpl. rewrite Hkeys. exact Hnd.
Qed.

Lemma format_properties_keeps_names_witness :
  format_properties
    (JDict [("Title", JDict [("type", JStr "title");
                             ("title", JList [JDict [("plain_text", JStr "Plan")]])]);
            ("Done", JDict [("type", JStr "checkbox"); ("checkbox", JBool true)])])
  = Ok (JDict [("Title", JStr "Plan"); ("Done", JBool true)]).
Proof.
  apply (format_properties_keeps_names
           [("Title", JDict [("type", JStr "title");
                             ("title", JList [JDict [("plain_text", JStr "Plan")]])]);
            ("Done", JDict [("type", JStr "checkbox"); ("checkbox", JBool true)])]
           [JStr "Plan"; JBool true]).
  - repeat constructor; simpl; intuition discriminate.
  - reflexivity.
Defined.
